(** * Bluesky list processor: resolver, enumerator and action loop

    A shallow embedding of [bluesky-list-processor.py].  Python [str] is
    modelled by [string] (a sequence of bytes, UTF-8 for non-ASCII text:
    every character the program inspects is ASCII, so prefix tests,
    splitting on [/] and substring tests agree with Python's), Python [int]
    by [Z], the [set] of [get_feed_users] by stdpp's [gset], exceptions by a
    sum type, and the remote service, the file system and the console by an
    explicit state with a trace of the calls the program performs. *)

From Stdlib Require Import Ascii String ZArith QArith Lia.
From stdpp Require Import gmap strings pretty list.

Local Open Scope Z_scope.

(** ** Python strings *)

Module Str.

(** [s.startswith(p)] *)
Fixpoint startswith (p s : string) : bool :=
  match p, s with
  | EmptyString, _ => true
  | String a p', String b s' => Ascii.eqb a b && startswith p' s'
  | String _ _, EmptyString => false
  end.

(** [p in s] for two strings: [p] occurs in [s] as a substring. *)
Fixpoint contains (p s : string) : bool :=
  startswith p s ||
  match s with
  | EmptyString => false
  | String _ s' => contains p s'
  end.

(** [c in s] for a one-character [c]. *)
Fixpoint mem (c : ascii) (s : string) : bool :=
  match s with
  | EmptyString => false
  | String d s' => Ascii.eqb c d || mem c s'
  end.

(** [s.split(sep)] for a one-character separator: never the empty list,
    [''.split('/') = ['']]. *)
Fixpoint split (sep : ascii) (s : string) : list string :=
  match s with
  | EmptyString => [EmptyString]
  | String c s' =>
      if Ascii.eqb c sep then EmptyString :: split sep s'
      else match split sep s' with
           | p :: ps => String c p :: ps
           | [] => [String c EmptyString]
           end
  end.

(** [s.split(sep, 1)] as a pair: the text before the first [sep] and,
    when [sep] occurs, the text after it. *)
Fixpoint cut (sep : ascii) (s : string) : string * option string :=
  match s with
  | EmptyString => (EmptyString, None)
  | String c s' =>
      if Ascii.eqb c sep then (EmptyString, Some s')
      else let '(a, b) := cut sep s' in (String c a, b)
  end.

(** The longest prefix without a character of [stop], and the rest. *)
Fixpoint span_until (stop : string) (s : string) : string * string :=
  match s with
  | EmptyString => (EmptyString, EmptyString)
  | String c s' =>
      if mem c stop then (EmptyString, s)
      else let '(a, b) := span_until stop s' in (String c a, b)
  end.

Fixpoint drop (n : nat) (s : string) : string :=
  match n, s with
  | O, _ => s
  | S n', String _ s' => drop n' s'
  | S _, EmptyString => EmptyString
  end.

Definition is_upper (c : ascii) : bool :=
  (65 <=? nat_of_ascii c)%nat && (nat_of_ascii c <=? 90)%nat.
Definition is_lower (c : ascii) : bool :=
  (97 <=? nat_of_ascii c)%nat && (nat_of_ascii c <=? 122)%nat.
Definition is_digit (c : ascii) : bool :=
  (48 <=? nat_of_ascii c)%nat && (nat_of_ascii c <=? 57)%nat.
Definition is_alpha (c : ascii) : bool := is_upper c || is_lower c.

Definition lower_char (c : ascii) : ascii :=
  if is_upper c then ascii_of_nat (nat_of_ascii c + 32) else c.

Fixpoint lower (s : string) : string :=
  match s with
  | EmptyString => EmptyString
  | String c s' => String (lower_char c) (lower s')
  end.

Fixpoint forallb (f : ascii -> bool) (s : string) : bool :=
  match s with
  | EmptyString => true
  | String c s' => f c && forallb f s'
  end.

Fixpoint filter (f : ascii -> bool) (s : string) : string :=
  match s with
  | EmptyString => EmptyString
  | String c s' => if f c then String c (filter f s') else filter f s'
  end.

(** [s.lstrip(chars)] for the set of characters accepted by [f]. *)
Fixpoint lstrip (f : ascii -> bool) (s : string) : string :=
  match s with
  | EmptyString => EmptyString
  | String c s' => if f c then lstrip f s' else s
  end.

End Str.

(** ** Exceptions

    Every exception the program meets is an [Exception]: the [ValueError]s
    raised by the resolver (and by [urlparse]), an [IndexError] for a list
    index out of range, the [OSError] of a file that cannot be opened, and
    whatever a call of the remote service raises.
    [str e] is [str(e)]. *)

Inductive exn : Type :=
| ValueError (msg : string)
| IndexError (msg : string)
| RemoteError (msg : string)
| OSError (msg : string).

Definition str (e : exn) : string :=
  match e with
  | ValueError m | IndexError m | RemoteError m | OSError m => m
  end.

Definition result (A : Type) : Type := exn + A.

Definition bindE {A B} (m : result A) (k : A -> result B) : result B :=
  match m with
  | inl e => inl e
  | inr a => k a
  end.

Notation "'let*' x ':=' m 'in' k" := (bindE m (fun x => k))
  (at level 10, x name, m at level 100, k at level 200).

(** [l[i]] on a Python list. *)
Definition index {A} (l : list A) (i : nat) : result A :=
  match l !! i with
  | Some a => inr a
  | None => inl (IndexError "list index out of range")
  end.

(** ** [urllib.parse.urlparse] *)

Record ParseResult : Type := mkParseResult {
  scheme : string;
  netloc : string;
  path : string;
  params : string;
  query : string;
  fragment : string
}.

(** A model of the standard library's [urlparse] on [str] input, after
    CPython's [urllib/parse.py]: leading C0 controls and spaces are
    stripped, tabs and newlines removed, the scheme is split off at the
    first [:], the network location runs from [//] to the first of [/?#],
    then fragment, query and (for a scheme that has them) the parameters of
    the last path segment are split off.  A bracket without its partner in
    the network location is a [ValueError]; the further checks CPython
    makes on a bracketed or non-ASCII network location are not modelled. *)
Module UrlLib.

Definition scheme_char (c : ascii) : bool :=
  Str.is_alpha c || Str.is_digit c || Str.mem c "+-.".

Definition uses_params : list string :=
  [""; "ftp"; "hdl"; "prospero"; "http"; "imap"; "https"; "shttp"; "rtsp";
   "rtspu"; "sip"; "sips"; "mms"; "sftp"; "tel"].

Definition c0_or_space (c : ascii) : bool := (nat_of_ascii c <=? 32)%nat.

Definition unsafe_byte (c : ascii) : bool :=
  let n := nat_of_ascii c in ((n =? 9) || (n =? 10) || (n =? 13))%nat.

(** The scheme and the rest: [url[:i].lower(), url[i+1:]] when the text
    before the first [:] is not empty, starts with a letter and holds
    scheme characters only. *)
Definition split_scheme (url : string) : string * string :=
  match Str.cut ":" url with
  | (String c0 s0, Some rest) =>
      if Str.is_alpha c0 && Str.forallb scheme_char (String c0 s0)
      then (Str.lower (String c0 s0), rest)
      else (EmptyString, url)
  | _ => (EmptyString, url)
  end.

(** [_splitnetloc(url, 2)], taken when [url[:2] == '//']. *)
Definition split_netloc (url : string) : string * string :=
  if Str.startswith "//" url then Str.span_until "/?#" (Str.drop 2 url)
  else (EmptyString, url).

Definition cut_default (sep : ascii) (s : string) : string * string :=
  match Str.cut sep s with
  | (a, Some b) => (a, b)
  | (a, None) => (a, EmptyString)
  end.

(** [_splitparams]: the parameters are those of the last path segment. *)
Fixpoint split_params_segments (segs : list string) : list string * string :=
  match segs with
  | [] => ([], EmptyString)
  | [last] => let '(a, b) := cut_default ";" last in ([a], b)
  | seg :: rest =>
      let '(rest', b) := split_params_segments rest in (seg :: rest', b)
  end.

Fixpoint join (sep : string) (l : list string) : string :=
  match l with
  | [] => EmptyString
  | [s] => s
  | s :: rest => s +:+ sep +:+ join sep rest
  end.

Definition split_params (url : string) : string * string :=
  let '(segs, b) := split_params_segments (Str.split "/" url) in
  (join "/" segs, b).

Definition urlparse (url0 : string) : exn + ParseResult :=
  let url := Str.filter (fun c => negb (unsafe_byte c)) (Str.lstrip c0_or_space url0) in
  let '(scheme, url) := split_scheme url in
  let '(netloc, url) := split_netloc url in
  if xorb (Str.mem "[" netloc) (Str.mem "]" netloc)
  then inl (ValueError "Invalid IPv6 URL")
  else
    let '(url, fragment) := cut_default "#" url in
    let '(url, query) := cut_default "?" url in
    let '(url, params) :=
      if bool_decide (scheme ∈ uses_params) && Str.mem ";" url
      then split_params url else (url, EmptyString) in
    inr (mkParseResult scheme netloc url params query fragment).

End UrlLib.

(** ** The identifier resolver: [convert_url_to_at_uri]

    The function returns either one string (an AT URI) or a triple
    [(identifier, list_name, record_type)] that [process_list] recognises
    with [isinstance(result, tuple)]. *)

Inductive resolved : Type :=
| AtUri (uri : string)
| NeedsHandle (identifier list_name record_type : string).

(** [[p for p in path.split('/') if p]] *)
Definition path_parts (path : string) : list string :=
  List.filter (fun p => negb (String.eqb p "")) (Str.split "/" path).

Section Resolver.

(** The URL parser in use; the theorems hold for any, the examples use
    [UrlLib.urlparse]. *)
Variable urlparse : string -> result ParseResult.

Definition convert_url_to_at_uri (url : string) : result resolved :=
  if Str.startswith "at://" url then inr (AtUri url)
  else
    let* parsed := urlparse url in
    if negb (String.eqb (netloc parsed) "bsky.app")
    then inl (ValueError "Not a valid Bluesky URL")
    else
      let parts := path_parts (path parsed) in
      let* bad_shape :=
        if (length parts <? 4)%nat then inr true
        else let* p0 := index parts 0 in inr (negb (String.eqb p0 "profile")) in
      if bad_shape : bool
      then inl (ValueError "Not a valid Bluesky feed URL")
      else
        let* identifier := index parts 1 in
        let* feed_type := index parts 2 in
        let* list_name := index parts 3 in
        let* record_type :=
          if String.eqb feed_type "feed" then inr "app.bsky.feed.generator"
          else if String.eqb feed_type "lists" then inr "app.bsky.graph.list"
          else inl (ValueError ("Unknown feed type: " +:+ feed_type)) in
        if Str.startswith "did:" identifier
        then inr (AtUri ("at://" +:+ identifier +:+ "/" +:+ record_type +:+ "/" +:+ list_name))
        else inr (NeedsHandle identifier list_name record_type).

End Resolver.

(** ** Data of the remote service and of the program *)

(** An account as the service reports it: [item.post.author] of a feed item,
    [item.subject] of a list entry, [client.me] after login. *)
Module Actor.
Record t : Type := mk { did : string; handle : string }.
End Actor.

(** A feed item; [author = None] is a post for which
    [hasattr(item.post, 'author')] is false. *)
Record PostView : Type := mkPostView { author : option Actor.t }.
Record FeedViewPost : Type := mkFeedViewPost { post : PostView }.
Record ListItemView : Type := mkListItemView { subject : Actor.t }.

(** The dictionary [{'did': ..., 'handle': ...}] that stands for a user. *)
Record user : Type := mkUser { did : string; handle : string }.

(** What [json.dump] is given. *)
#[warnings="-register-all"]
Inductive json : Type :=
| JString (s : string)
| JArray (items : list json)
| JObject (members : list (string * json)).

Definition user_json (u : user) : json :=
  JObject [("did", JString (did u)); ("handle", JString (handle u))].

(** A file written by [json.dump(value, f, indent=indent)]. *)
Record file : Type := mkFile { value : json; indent : Z }.

(** The record passed to [block.create]. *)
Record BlockRecord : Type := mkBlockRecord {
  type_ : string;
  block_subject : string;
  createdAt : string
}.

(** ** The world: remote service, clock, files and console *)

(** The calls the program makes on the [atproto] client. *)
Inductive call : Type :=
| Login (username password : string)
| ResolveHandle (handle : string)
| GetFeed (feed : string) (limit : Z)
| GetList (list_uri : string)
| BlockCreate (repo : string) (record : BlockRecord)
| MuteActor (actor : string).

(** What the program does, in order: each remote call with the exception it
    raised, if any; each line printed; each file written; each pause. *)
Inductive event : Type :=
| Call (c : call) (raised : option exn)
| Print (line : string)
| WriteFile (path : string) (content : file)
| Sleep (seconds : Q).

(** The remote service, the clock and the opening of files, over a state
    [R] of their own: every call may change that state, and return or
    raise.  [open_for_writing path] is [open(path, 'w')]: it raises when
    the file cannot be created or opened. *)
Record Service (R : Type) : Type := mkService {
  login : string -> string -> R -> R * result Actor.t;
  resolve_handle : string -> R -> R * result string;
  get_feed : string -> Z -> R -> R * result (list FeedViewPost);
  get_list : string -> R -> R * result (list ListItemView);
  block_create : string -> BlockRecord -> R -> R * result unit;
  mute_actor : string -> R -> R * result unit;
  utcnow_isoformat : R -> R * string;
  open_for_writing : string -> R -> R * result unit
}.
Arguments login {R}. Arguments resolve_handle {R}. Arguments get_feed {R}.
Arguments get_list {R}. Arguments block_create {R}. Arguments mute_actor {R}.
Arguments utcnow_isoformat {R}. Arguments open_for_writing {R}.

Record state (R : Type) : Type := mkState {
  remote : R;
  files : gmap string file
}.
Arguments mkState {R}. Arguments remote {R}. Arguments files {R}.

(** A computation: from a state to the new state, the events it produced
    and its value or the exception it raised. *)
Definition M (R A : Type) : Type := state R -> state R * list event * result A.

Definition raised {A} (r : result A) : option exn :=
  match r with inl e => Some e | inr _ => None end.

Section Monad.
Context {R : Type}.

Definition ret {A} (a : A) : M R A := fun s => (s, [], inr a).

Definition raise {A} (e : exn) : M R A := fun s => (s, [], inl e).

Definition bind {A B} (m : M R A) (k : A -> M R B) : M R B := fun s =>
  match m s with
  | (s1, t1, inl e) => (s1, t1, inl e)
  | (s1, t1, inr a) => let '(s2, t2, r) := k a s1 in (s2, t1 ++ t2, r)
  end.

(** [try: m except Exception as e: h e] *)
Definition try_except {A} (m : M R A) (h : exn -> M R A) : M R A := fun s =>
  match m s with
  | (s1, t1, inl e) => let '(s2, t2, r) := h e s1 in (s2, t1 ++ t2, r)
  | (s1, t1, inr a) => (s1, t1, inr a)
  end.

Definition lift {A} (r : result A) : M R A := fun s => (s, [], r).

Definition emit (e : event) : M R unit := fun s => (s, [e], inr tt).

Definition print (line : string) : M R unit := emit (Print line).

Definition sleep (seconds : Q) : M R unit := emit (Sleep seconds).

(** [with open(path, 'w') as f: json.dump(value, f, indent=indent)]: when
    the file cannot be opened the exception is raised and no file changes;
    otherwise the file holds the new text only, whatever it held before. *)
Definition dump_to (svc : Service R) (path : string) (content : file) : M R unit := fun s =>
  match open_for_writing svc path (remote s) with
  | (r', inl e) => (mkState r' (files s), [], inl e)
  | (r', inr _) =>
      (mkState r' (<[path := content]> (files s)), [WriteFile path content], inr tt)
  end.

(** A remote call: the service answers, the call and its outcome are
    recorded. *)
Definition remote_call {A} (c : call) (f : R -> R * result A) : M R A := fun s =>
  let '(r', res) := f (remote s) in
  (mkState r' (files s), [Call c (raised res)], res).

Definition utcnow (svc : Service R) : M R string := fun s =>
  let '(r', now) := utcnow_isoformat svc (remote s) in
  (mkState r' (files s), [], inr now).

End Monad.

#[global] Instance M_ret {R} : MRet (M R) := @ret R.
#[global] Instance M_bind {R} : MBind (M R) := fun A B k m => bind m k.

Definition nl : string := String "010" EmptyString.

(** ** The program *)

Section Program.
Context {R : Type}.
Variable urlparse : string -> result ParseResult.
Variable client : Service R.

(** [resolve_handle_to_did] *)
Definition resolve_handle_to_did (handle : string) : M R string :=
  remote_call (ResolveHandle handle) (resolve_handle client handle).

(** The loop of [get_feed_users]: the pair of every item that has an
    author is added to the set. *)
Definition feed_authors (feed : list FeedViewPost) : gset (string * string) :=
  foldl (fun users item =>
           match author (post item) with
           | Some a => {[ (Actor.did a, Actor.handle a) ]} ∪ users
           | None => users
           end) ∅ feed.

(** [{'did': did, 'handle': handle}] for a pair of the set. *)
Definition user_of_pair (p : string * string) : user :=
  let '(did, handle) := p in mkUser did handle.

(** [get_feed_users]: the list is made from the set, in the order in
    which the set enumerates its elements. *)
Definition get_feed_users (uri : string) (limit : Z) : M R (list user) :=
  try_except
    (response ← remote_call (GetFeed uri limit) (get_feed client uri limit);
     let users := feed_authors response in
     mret (user_of_pair <$> elements users))
    (fun e =>
       print ("Error getting feed: " +:+ str e);;
       raise e).

(** Lines 119-128 of [process_list]: the URI of the list or feed, after
    the handle has been resolved when the resolver asks for it. *)
Definition resolve_list_uri (list_input : string) : M R string :=
  result ← lift (convert_url_to_at_uri urlparse list_input);
  match result with
  | NeedsHandle handle list_name record_type =>
      print ("Resolving handle: " +:+ handle);;
      did ← resolve_handle_to_did handle;
      let list_uri := "at://" +:+ did +:+ "/" +:+ record_type +:+ "/" +:+ list_name in
      print ("Resolved DID: " +:+ did);;
      mret list_uri
  | AtUri uri => mret uri
  end.

(** Lines 133-140: the users of the feed or of the list. *)
Definition enumerate_users (list_uri : string) (limit : Z) : M R (list user) :=
  if Str.contains "feed.generator" list_uri
  then
    print ("Processing feed (fetching up to " +:+ pretty limit +:+ " posts)...");;
    get_feed_users list_uri limit
  else
    print "Processing list...";;
    list_view ← remote_call (GetList list_uri) (get_list client list_uri);
    mret ((fun item => mkUser (Actor.did (subject item)) (Actor.handle (subject item)))
            <$> list_view).

(** Lines 160-176: the block or the mute of one user. *)
Definition apply_action (me : Actor.t) (action : string) (u : user) : M R unit :=
  if String.eqb action "block"
  then
    now ← utcnow client;
    let record := mkBlockRecord "app.bsky.graph.block" (did u) (now +:+ "Z") in
    remote_call (BlockCreate (Actor.did me) record)
                (block_create client (Actor.did me) record);;
    print ("Blocked " +:+ handle u)
  else
    remote_call (MuteActor (did u)) (mute_actor client (did u));;
    print ("Muted " +:+ handle u).

(** Lines 159-184, the body of the loop: one user is attempted, then the
    pause, all inside the [try]; the handler counts the error. *)
Definition attempt_user (me : Actor.t) (action : string) (u : user)
           (processed errors : Z) : M R (Z * Z) :=
  try_except
    (apply_action me action u;;
     let processed := processed + 1 in
     sleep (1 # 2);;
     mret (processed, errors))
    (fun e =>
       print ("Error processing " +:+ handle u +:+ ": " +:+ str e);;
       mret (processed, errors + 1)).

(** Lines 156-185: the loop over the users, with its two counters. *)
Fixpoint action_loop (me : Actor.t) (action : string) (users : list user)
         (processed errors : Z) : M R (Z * Z) :=
  match users with
  | [] => mret (processed, errors)
  | u :: rest =>
      counters ← attempt_user me action u processed errors;
      action_loop me action rest (fst counters) (snd counters)
  end.

(** Lines 150-151. *)
Fixpoint dry_run_report (action : string) (users : list user) : M R unit :=
  match users with
  | [] => mret tt
  | u :: rest =>
      print ("Would " +:+ action +:+ " user: " +:+ handle u);;
      dry_run_report action rest
  end.

Definition users_file (users : list user) : file :=
  mkFile (JArray (user_json <$> users)) 2.

Definition process_list (username password list_input action : string)
           (dry_run : bool) (output_file : string) (limit : Z) : M R unit :=
  print ("Connecting to Bluesky as " +:+ username +:+ "...");;
  try_except
    (me ← remote_call (Login username password) (login client username password);
     print "Successfully logged in";;
     list_uri ← resolve_list_uri list_input;
     print ("Using URI: " +:+ list_uri);;
     users ← enumerate_users list_uri limit;
     dump_to client output_file (users_file users);;
     print ("Found " +:+ pretty (length users) +:+ " unique users, saved to " +:+ output_file);;
     if dry_run
     then
       print (nl +:+ "DRY RUN - No actions will be taken");;
       dry_run_report action users
     else
       print (nl +:+ "Starting to " +:+ action +:+ " users...");;
       counters ← action_loop me action users 0 0;
       print (nl +:+ "Completed: " +:+ pretty (fst counters) +:+ " users " +:+ action
              +:+ "ed, " +:+ pretty (snd counters) +:+ " errors"))
    (fun e => print ("Error: " +:+ str e)).

End Program.

(** ** A scripted service for the examples *)

Module Script.

(** The state is the number of block or mute requests received; request
    number [fail_at] (from 0) is refused. *)
Definition act (fail_at : nat) (n : nat) : nat * result unit :=
  (S n, if (n =? fail_at)%nat then inl (RemoteError "refused") else inr tt).

Definition service (feed : list FeedViewPost) (members : list ListItemView)
           (fail_at : nat) : Service nat :=
  {| login := fun _ _ n => (n, inr (Actor.mk "did:plc:me" "me.example"));
     resolve_handle := fun h n => (n, inr ("did:plc:" +:+ h));
     get_feed := fun _ _ n => (n, inr feed);
     get_list := fun _ n => (n, inr members);
     block_create := fun _ _ => act fail_at;
     mute_actor := fun _ => act fail_at;
     utcnow_isoformat := fun n => (n, "2024-01-01T00:00:00");
     open_for_writing := fun _ n => (n, inr tt) |}.

Definition start : state nat := mkState 0%nat ∅.

Definition item (did handle : string) : FeedViewPost :=
  mkFeedViewPost (mkPostView (Some (Actor.mk did handle))).

Definition member (did handle : string) : ListItemView :=
  mkListItemView (Actor.mk did handle).

Definition me : Actor.t := Actor.mk "did:plc:me" "me.example".

Definition two_members : list ListItemView :=
  [member "did:plc:x" "x.example"; member "did:plc:y" "y.example"].

Definition three_users : list user :=
  [mkUser "did:plc:x" "x.example"; mkUser "did:plc:y" "y.example";
   mkUser "did:plc:z" "z.example"].

End Script.

(** ** Error classes and the two readings of the name *)

(** The spec's error classes, as the resolver raises them: both shape
    errors are [InvalidResource], the third [ValueError] is
    [UnknownResourceFamily] and carries the segment. *)
Definition InvalidResource (e : exn) : Prop :=
  e = ValueError "Not a valid Bluesky URL" \/ e = ValueError "Not a valid Bluesky feed URL".

Definition UnknownResourceFamily (segment : string) (e : exn) : Prop :=
  e = ValueError ("Unknown feed type: " +:+ segment).

(** [urllib.parse.unquote] on the bytes of its argument: [%XY] with two
    hexadecimal digits is the byte [XY], everything else is kept.  The
    program imports it and never calls it. *)
Definition hex_digit (c : ascii) : option nat :=
  let n := nat_of_ascii c in
  if Str.is_digit c then Some (n - 48)%nat
  else if ((65 <=? n) && (n <=? 70))%nat then Some (n - 55)%nat
  else if ((97 <=? n) && (n <=? 102))%nat then Some (n - 87)%nat
  else None.

Fixpoint unquote (s : string) : string :=
  match s with
  | EmptyString => EmptyString
  | String c s' =>
      if Ascii.eqb c "%" then
        match s' with
        | String a (String b rest) =>
            match hex_digit a, hex_digit b with
            | Some x, Some y => String (ascii_of_nat (16 * x + y)) (unquote rest)
            | _, _ => String c (unquote s')
            end
        | _ => String c (unquote s')
        end
      else String c (unquote s')
  end.

(** The record type chosen for the third segment. *)
Definition record_type_of (feed_type : string) : option string :=
  if String.eqb feed_type "feed" then Some "app.bsky.feed.generator"
  else if String.eqb feed_type "lists" then Some "app.bsky.graph.list"
  else None.

(** What the resolver returns for an identifier, a record type and a name. *)
Definition resolution (identifier record_type list_name : string) : resolved :=
  if Str.startswith "did:" identifier
  then AtUri ("at://" +:+ identifier +:+ "/" +:+ record_type +:+ "/" +:+ list_name)
  else NeedsHandle identifier list_name record_type.

(** "The name carried by the result is the fourth segment of the path as
    [decode] presents it": with [decode := unquote] the reading of the spec,
    with the identity what the program does. *)
Definition name_taken_from (decode : string -> string)
           (urlparse : string -> result ParseResult) : Prop :=
  forall url parsed r,
    Str.startswith "at://" url = false ->
    urlparse url = inr parsed ->
    convert_url_to_at_uri urlparse url = inr r ->
    exists identifier record_type list_name,
      path_parts (path parsed) !! 1%nat = Some identifier /\
      path_parts (decode (path parsed)) !! 3%nat = Some list_name /\
      r = resolution identifier record_type list_name.

(** ** Reading a trace *)

(** The account a block or mute request is aimed at. *)
Definition action_target (c : call) : option string :=
  match c with
  | BlockCreate _ record => Some (block_subject record)
  | MuteActor actor => Some actor
  | _ => None
  end.

Definition is_action (ev : event) : bool :=
  match ev with
  | Call c _ => match action_target c with Some _ => true | None => false end
  | _ => false
  end.

(** One attempt of the action loop as the trace shows it: the account, the
    outcome of the request, and the pauses made after it and before the
    next request (or the end of the trace). *)
Record attempt : Type := mkAttempt {
  target : string;
  succeeded : bool;
  pauses : list Q
}.

(** The pauses before the first request, and the attempts. *)
Fixpoint attempts_from (tr : list event) : list Q * list attempt :=
  match tr with
  | [] => ([], [])
  | ev :: tr' =>
      let '(qs, rest) := attempts_from tr' in
      match ev with
      | Sleep q => (q :: qs, rest)
      | Call c r =>
          match action_target c with
          | Some t => ([], mkAttempt t (bool_decide (r = None)) qs :: rest)
          | None => (qs, rest)
          end
      | _ => (qs, rest)
      end
  end.

Definition attempts (tr : list event) : list attempt := snd (attempts_from tr).

Definition successes (tr : list event) : nat :=
  length (List.filter succeeded (attempts tr)).

Definition failures (tr : list event) : nat :=
  length (List.filter (fun a => negb (succeeded a)) (attempts tr)).

(** The line that reports the two counters. *)
Definition is_summary (ev : event) : bool :=
  match ev with
  | Print line => Str.startswith (nl +:+ "Completed: ") line
  | _ => false
  end.

Definition is_sleep (ev : event) : bool :=
  match ev with
  | Sleep _ => true
  | _ => false
  end.

(** An event that belongs to the action phase only: a block or mute
    request, a pause, or the line of the counters. *)
Definition quiet (ev : event) : Prop :=
  is_action ev = false /\ is_sleep ev = false /\ is_summary ev = false.

Section Runs.
Context {R : Type}.

Definition trace_of {A} (m : M R A) (s : state R) : list event := snd (fst (m s)).

Definition final_state {A} (m : M R A) (s : state R) : state R := fst (fst (m s)).

(** Every event of every run of [m] satisfies [P]. *)
Definition Always (P : event -> Prop) {A} (m : M R A) : Prop :=
  forall s, Forall P (trace_of m s).

(** No run of [m] changes a file. *)
Definition KeepsFiles {A} (m : M R A) : Prop :=
  forall s, files (final_state m s) = files s.

End Runs.

(** ** The entry point: [main] *)

(** The namespace [parse_arguments] returns. *)
Module Args.
Record t : Type := mk {
  list_url : string;
  action : string;
  dry_run : bool;
  output : string;
  limit : Z
}.
End Args.

(** [bool(v)] for the value of [os.getenv]: [None] and the empty string are
    false. *)
Definition truthy (v : option string) : bool :=
  match v with
  | Some (String _ _) => true
  | _ => false
  end.

Section Main.
Context {R : Type}.
Variable urlparse : string -> result ParseResult.
Variable client : Service R.

(** [parse_arguments] is [argparse]'s work and is taken as given: it may
    print, and what it raises leaves [main], which catches nothing. *)
Variable parse_arguments : M R Args.t.

(** [main], on the environment as [load_dotenv] leaves it.  After the test
    both credentials are strings. *)
Definition main (environ : gmap string string) : M R unit :=
  let username := environ !! "BSKY_USERNAME" in
  let password := environ !! "BSKY_PASSWORD" in
  if negb (truthy username) || negb (truthy password)
  then print "Error: BSKY_USERNAME and BSKY_PASSWORD must be set in .env file"
  else
    args ← parse_arguments;
    process_list urlparse client (default "" username) (default "" password)
      (Args.list_url args) (Args.action args) (Args.dry_run args)
      (Args.output args) (Args.limit args).

End Main.

(** ** A service that refuses *)

Module Faulty.

(** Login is refused unless [login_ok]; handles are unknown and feeds
    unavailable; lists are empty and every block or mute is accepted. *)
Definition service (login_ok : bool) : Service nat :=
  {| login := fun _ _ n =>
       (n, if login_ok then inr (Actor.mk "did:plc:me" "me.example")
           else inl (RemoteError "invalid password"));
     resolve_handle := fun _ n => (n, inl (RemoteError "unknown handle"));
     get_feed := fun _ _ n => (n, inl (RemoteError "feed unavailable"));
     get_list := fun _ n => (n, inr []);
     block_create := fun _ _ n => (n, inr tt);
     mute_actor := fun _ n => (n, inr tt);
     utcnow_isoformat := fun n => (n, "2024-01-01T00:00:00");
     open_for_writing := fun _ n => (n, inr tt) |}.


(** A command line already parsed. *)
Definition parsed_args : Args.t :=
  Args.mk "https://bsky.app/profile/did:plc:o/lists/abc" "mute" true
          "users_to_process.json" 100.

Definition parse_arguments : M nat Args.t := fun s => (s, [], inr parsed_args).

End Faulty.

(** ** A service with two feeds *)

Module Feeds.

(** The feed [.../one] shows the author [a] twice around [b]; every other
    feed shows [b], then [a]. *)
Definition answer (uri : string) : list FeedViewPost :=
  if String.eqb uri "at://did:plc:f/app.bsky.feed.generator/one"
  then [Script.item "did:plc:a" "a.example"; Script.item "did:plc:b" "b.example";
        Script.item "did:plc:a" "a.example"]
  else [Script.item "did:plc:b" "b.example"; Script.item "did:plc:a" "a.example"].

Definition service : Service nat :=
  {| login := fun _ _ n => (n, inr (Actor.mk "did:plc:me" "me.example"));
     resolve_handle := fun h n => (n, inr ("did:plc:" +:+ h));
     get_feed := fun uri _ n => (n, inr (answer uri));
     get_list := fun _ n => (n, inr []);
     block_create := fun _ _ n => (n, inr tt);
     mute_actor := fun _ n => (n, inr tt);
     utcnow_isoformat := fun n => (n, "2024-01-01T00:00:00");
     open_for_writing := fun _ n => (n, inr tt) |}.

End Feeds.

(** ** More ways to read a trace *)

(** The block and mute requests of a trace, in order. *)
Fixpoint requests (tr : list event) : list call :=
  match tr with
  | [] => []
  | Call c _ :: tr' =>
      match action_target c with
      | Some _ => c :: requests tr'
      | None => requests tr'
      end
  | _ :: tr' => requests tr'
  end.

(** The block requests the loop sends for [users] when the service is in
    state [r]: before each request the clock is read for [createdAt], and
    the next user meets the state that the request left. *)
Fixpoint block_requests_from {R} (client : Service R) (me : Actor.t) (users : list user)
         (r : R) : list call :=
  match users with
  | [] => []
  | u :: rest =>
      let clock := utcnow_isoformat client r in
      let record := mkBlockRecord "app.bsky.graph.block" (did u) (snd clock +:+ "Z") in
      BlockCreate (Actor.did me) record
      :: block_requests_from client me rest
           (fst (block_create client (Actor.did me) record (fst clock)))
  end.

Definition is_write (ev : event) : bool :=
  match ev with
  | WriteFile _ _ => true
  | _ => false
  end.

(** An event of the phases before the file is written. *)
Definition calm (ev : event) : Prop := quiet ev /\ is_write ev = false.

(** The events up to the end of the enumeration, when login and resolution
    succeeded. *)
Definition front_of (username password : string) (t2 : list event) (list_uri : string)
           (t3 : list event) : list event :=
  [Print ("Connecting to Bluesky as " +:+ username +:+ "...");
   Call (Login username password) None;
   Print "Successfully logged in"]
  ++ t2 ++ [Print ("Using URI: " +:+ list_uri)] ++ t3.

(** No run of [m] changes a file other than [path]. *)
Definition WritesOnly {R A} (path : string) (m : M R A) : Prop :=
  forall s other, other <> path -> files (final_state m s) !! other = files s !! other.

(** * Properties *)

(** The resolver on a URL that passed the host test, by the shape of its
    path. *)
Lemma convert_accepted_host urlparse url parsed :
  Str.startswith "at://" url = false ->
  urlparse url = inr parsed ->
  netloc parsed = "bsky.app" ->
  convert_url_to_at_uri urlparse url =
    match path_parts (path parsed) with
    | p0 :: identifier :: feed_type :: list_name :: _ =>
        if String.eqb p0 "profile" then
          match record_type_of feed_type with
          | Some record_type => inr (resolution identifier record_type list_name)
          | None => inl (ValueError ("Unknown feed type: " +:+ feed_type))
          end
        else inl (ValueError "Not a valid Bluesky feed URL")
    | _ => inl (ValueError "Not a valid Bluesky feed URL")
    end.
Proof.
  intros Hat Hp Hn. unfold convert_url_to_at_uri.
  rewrite Hat, Hp. cbn [bindE]. rewrite Hn. cbn [String.eqb Ascii.eqb Bool.eqb negb].
  destruct (path_parts (path parsed)) as [|p0 [|identifier [|feed_type [|list_name rest]]]];
    try reflexivity.
  cbn [length Nat.ltb Nat.leb index lookup list_lookup bindE].
  destruct (String.eqb p0 "profile"); cbn [negb]; [|reflexivity].
  unfold record_type_of, resolution.
  destruct (String.eqb feed_type "feed"); cbn [bindE];
    [destruct (Str.startswith "did:" identifier); reflexivity|].
  destruct (String.eqb feed_type "lists"); cbn [bindE];
    [destruct (Str.startswith "did:" identifier); reflexivity|reflexivity].
Qed.

Lemma eqb_false_ne (a b : string) : a <> b -> String.eqb a b = false.
Proof. intros H. now apply String.eqb_neq. Qed.

(** C5: an input that starts with [at://] is returned unchanged, whatever
    follows the prefix and whatever the URL parser would make of it (the
    parser is not consulted); so resolving a resolved identifier again
    changes nothing. *)
Theorem canonical_input_unchanged (urlparse : string -> result ParseResult) (url : string) :
  Str.startswith "at://" url = true ->
  convert_url_to_at_uri urlparse url = inr (AtUri url) /\
  convert_url_to_at_uri (fun _ => inl (ValueError "unused")) url = inr (AtUri url) /\
  (let* r := convert_url_to_at_uri urlparse url in
   match r with
   | AtUri uri => convert_url_to_at_uri urlparse uri
   | NeedsHandle _ _ _ => inr r
   end) = convert_url_to_at_uri urlparse url.
Proof.
  intros H. unfold convert_url_to_at_uri at 1 2 3. rewrite H. cbn [bindE].
  unfold convert_url_to_at_uri. now rewrite H.
Qed.

Lemma canonical_input_unchanged_witness :
  convert_url_to_at_uri UrlLib.urlparse "at://did:plc:abc123/app.bsky.graph.list/xyz"
  = inr (AtUri "at://did:plc:abc123/app.bsky.graph.list/xyz").
Proof.
  apply (canonical_input_unchanged UrlLib.urlparse
           "at://did:plc:abc123/app.bsky.graph.list/xyz").
  reflexivity.
Defined.

(** Every identifier the resolver returns as final is canonical, so that
    the resolver maps it to itself. *)
Lemma convert_idempotent urlparse url uri :
  convert_url_to_at_uri urlparse url = inr (AtUri uri) ->
  convert_url_to_at_uri urlparse uri = inr (AtUri uri).
Proof.
  intros H.
  assert (Hs : Str.startswith "at://" uri = true).
  { unfold convert_url_to_at_uri in H.
    destruct (Str.startswith "at://" url) eqn:Hat.
    - now inversion H; subst.
    - destruct (urlparse url) as [e|parsed]; [discriminate|]. cbn [bindE] in H.
      destruct (negb (String.eqb (netloc parsed) "bsky.app")); [discriminate|].
      destruct (path_parts (path parsed)) as [|p0 [|identifier [|feed_type [|list_name rest]]]];
        try discriminate.
      cbn [length Nat.ltb Nat.leb index lookup list_lookup bindE] in H.
      destruct (negb (String.eqb p0 "profile")); [discriminate|].
      destruct (String.eqb feed_type "feed"); cbn [bindE] in H.
      + destruct (Str.startswith "did:" identifier); [|discriminate].
        inversion H. reflexivity.
      + destruct (String.eqb feed_type "lists"); cbn [bindE] in H; [|discriminate].
        destruct (Str.startswith "did:" identifier); [|discriminate].
        inversion H. reflexivity. }
  unfold convert_url_to_at_uri. now rewrite Hs.
Qed.

(** The resolver is a pure function: inside [process_list] a resolver
    error is raised before any event. *)
Lemma resolve_list_uri_error {R} urlparse (client : Service R) list_input e s :
  convert_url_to_at_uri urlparse list_input = inl e ->
  resolve_list_uri urlparse client list_input s = (s, [], inl e).
Proof.
  intros H. unfold resolve_list_uri, mbind, M_bind, bind, lift. now rewrite H.
Qed.

Lemma resolve_list_uri_final {R} urlparse (client : Service R) list_input uri s :
  convert_url_to_at_uri urlparse list_input = inr (AtUri uri) ->
  resolve_list_uri urlparse client list_input s = (s, [], inr uri).
Proof.
  intros H. unfold resolve_list_uri, mbind, M_bind, bind, lift. now rewrite H.
Qed.

(** C6: a non-canonical input whose network location is not [bsky.app], or
    whose path has fewer than four non-empty segments, or whose first
    segment is not [profile], is refused with [InvalidResource], and
    resolving it inside [process_list] performs no remote call (no event at
    all, the state is unchanged). *)
Theorem invalid_resource_rejected {R} urlparse (client : Service R) url parsed :
  Str.startswith "at://" url = false ->
  urlparse url = inr parsed ->
  netloc parsed <> "bsky.app" \/
  (length (path_parts (path parsed)) < 4)%nat \/
  path_parts (path parsed) !! 0%nat <> Some "profile" ->
  exists e,
    InvalidResource e /\
    convert_url_to_at_uri urlparse url = inl e /\
    (netloc parsed <> "bsky.app" -> e = ValueError "Not a valid Bluesky URL") /\
    forall s, resolve_list_uri urlparse client url s = (s, [], inl e).
Proof.
  intros Hat Hp Hbad.
  destruct (String.eqb (netloc parsed) "bsky.app") eqn:Hn.
  - apply String.eqb_eq in Hn.
    destruct Hbad as [Hbad|Hbad]; [contradiction|].
    exists (ValueError "Not a valid Bluesky feed URL").
    assert (Hc : convert_url_to_at_uri urlparse url
                 = inl (ValueError "Not a valid Bluesky feed URL")).
    { rewrite (convert_accepted_host urlparse url parsed Hat Hp Hn).
      destruct (path_parts (path parsed)) as [|p0 [|identifier [|feed_type [|list_name rest]]]];
        try reflexivity.
      destruct Hbad as [Hbad|Hbad]; [simpl in Hbad; lia|].
      destruct (String.eqb p0 "profile") eqn:Hp0; [|reflexivity].
      apply String.eqb_eq in Hp0. subst p0. now contradiction Hbad. }
    split; [now right|]. split; [exact Hc|]. split; [intros Hne; contradiction|].
    intros s. now apply resolve_list_uri_error.
  - exists (ValueError "Not a valid Bluesky URL").
    assert (Hc : convert_url_to_at_uri urlparse url = inl (ValueError "Not a valid Bluesky URL")).
    { unfold convert_url_to_at_uri. rewrite Hat, Hp. cbn [bindE]. now rewrite Hn. }
    split; [now left|]. split; [exact Hc|]. split; [reflexivity|].
    intros s. now apply resolve_list_uri_error.
Qed.

(** C7: on a URL of the accepted shape, a third segment that is neither
    [feed] nor [lists] is refused with [UnknownResourceFamily] naming that
    segment, whatever the identifier segment is. *)
Theorem unknown_family_rejected urlparse url parsed segment :
  Str.startswith "at://" url = false ->
  urlparse url = inr parsed ->
  netloc parsed = "bsky.app" ->
  (4 <= length (path_parts (path parsed)))%nat ->
  path_parts (path parsed) !! 0%nat = Some "profile" ->
  path_parts (path parsed) !! 2%nat = Some segment ->
  segment <> "feed" -> segment <> "lists" ->
  convert_url_to_at_uri urlparse url = inl (ValueError ("Unknown feed type: " +:+ segment)) /\
  UnknownResourceFamily segment (ValueError ("Unknown feed type: " +:+ segment)).
Proof.
  intros Hat Hp Hn Hlen H0 H2 Hf Hl. split; [|reflexivity].
  rewrite (convert_accepted_host urlparse url parsed Hat Hp Hn).
  destruct (path_parts (path parsed)) as [|p0 [|identifier [|feed_type [|list_name rest]]]];
    simpl in Hlen; try lia.
  simpl in H0, H2. injection H0 as ->. injection H2 as ->.
  cbn [String.eqb Ascii.eqb Bool.eqb]. unfold record_type_of.
  now rewrite (eqb_false_ne _ _ Hf), (eqb_false_ne _ _ Hl).
Qed.

(** C4, as the program has it: on an accepted URL the result is built from
    the second and the fourth non-empty segment of the path as the parser
    returned it, unchanged (no percent-decoding), and from the record type
    of the third. *)
Theorem name_taken_verbatim urlparse url parsed r :
  Str.startswith "at://" url = false ->
  urlparse url = inr parsed ->
  convert_url_to_at_uri urlparse url = inr r ->
  exists identifier feed_type record_type list_name,
    path_parts (path parsed) !! 1%nat = Some identifier /\
    path_parts (path parsed) !! 2%nat = Some feed_type /\
    record_type_of feed_type = Some record_type /\
    path_parts (path parsed) !! 3%nat = Some list_name /\
    r = resolution identifier record_type list_name.
Proof.
  intros Hat Hp Hr.
  destruct (String.eqb (netloc parsed) "bsky.app") eqn:Hn.
  - apply String.eqb_eq in Hn.
    rewrite (convert_accepted_host urlparse url parsed Hat Hp Hn) in Hr.
    destruct (path_parts (path parsed)) as [|p0 [|identifier [|feed_type [|list_name rest]]]];
      try discriminate.
    destruct (String.eqb p0 "profile"); [|discriminate].
    destruct (record_type_of feed_type) as [record_type|] eqn:Hrt; [|discriminate].
    injection Hr as <-. now exists identifier, feed_type, record_type, list_name.
  - unfold convert_url_to_at_uri in Hr. rewrite Hat, Hp in Hr. cbn [bindE] in Hr.
    rewrite Hn in Hr. discriminate.
Qed.

Lemma invalid_resource_rejected_witness :
  exists e,
    InvalidResource e /\
    convert_url_to_at_uri UrlLib.urlparse "https://example.com/profile/did:plc:x/feed/abc" = inl e /\
    (netloc (mkParseResult "https" "example.com" "/profile/did:plc:x/feed/abc" "" "" "")
       <> "bsky.app" -> e = ValueError "Not a valid Bluesky URL") /\
    forall s, resolve_list_uri UrlLib.urlparse (Script.service [] [] 0)
                "https://example.com/profile/did:plc:x/feed/abc" s = (s, [], inl e).
Proof.
  apply (invalid_resource_rejected UrlLib.urlparse (Script.service [] [] 0)
           "https://example.com/profile/did:plc:x/feed/abc"
           (mkParseResult "https" "example.com" "/profile/did:plc:x/feed/abc" "" "" "")).
  - reflexivity.
  - reflexivity.
  - left. simpl. discriminate.
Defined.

Lemma unknown_family_rejected_witness :
  convert_url_to_at_uri UrlLib.urlparse "https://bsky.app/profile/alice.example/post/abc"
    = inl (ValueError ("Unknown feed type: " +:+ "post")) /\
  UnknownResourceFamily "post" (ValueError ("Unknown feed type: " +:+ "post")).
Proof.
  apply (unknown_family_rejected UrlLib.urlparse
           "https://bsky.app/profile/alice.example/post/abc"
           (mkParseResult "https" "bsky.app" "/profile/alice.example/post/abc" "" "" "")
           "post").
  - reflexivity.
  - reflexivity.
  - reflexivity.
  - vm_compute. lia.
  - reflexivity.
  - reflexivity.
  - discriminate.
  - discriminate.
Defined.

Lemma name_taken_verbatim_witness :
  exists identifier feed_type record_type list_name,
    path_parts "/profile/did:plc:x/lists/a%20b" !! 1%nat = Some identifier /\
    path_parts "/profile/did:plc:x/lists/a%20b" !! 2%nat = Some feed_type /\
    record_type_of feed_type = Some record_type /\
    path_parts "/profile/did:plc:x/lists/a%20b" !! 3%nat = Some list_name /\
    AtUri "at://did:plc:x/app.bsky.graph.list/a%20b"
      = resolution identifier record_type list_name.
Proof.
  apply (name_taken_verbatim UrlLib.urlparse
           "https://bsky.app/profile/did:plc:x/lists/a%20b"
           (mkParseResult "https" "bsky.app" "/profile/did:plc:x/lists/a%20b" "" "" "")
           (AtUri "at://did:plc:x/app.bsky.graph.list/a%20b")).
  - reflexivity.
  - reflexivity.
  - reflexivity.
Defined.

(** C4, as the spec has it, fails: a percent-encoded fourth segment reaches
    the result as it stands in the URL, [a%20b], where decoding the path
    gives [a b]. *)
Lemma percent_encoded_name_not_decoded :
  convert_url_to_at_uri UrlLib.urlparse "https://bsky.app/profile/alice.example/feed/a%20b"
    = inr (NeedsHandle "alice.example" "a%20b" "app.bsky.feed.generator") /\
  convert_url_to_at_uri UrlLib.urlparse "https://bsky.app/profile/did:plc:x/lists/a%20b"
    = inr (AtUri "at://did:plc:x/app.bsky.graph.list/a%20b") /\
  path_parts (unquote "/profile/alice.example/feed/a%20b") !! 3%nat = Some "a b" /\
  ~ name_taken_from unquote UrlLib.urlparse.
Proof.
  split; [reflexivity|]. split; [reflexivity|]. split; [reflexivity|].
  intros H.
  destruct (H "https://bsky.app/profile/alice.example/feed/a%20b"
              (mkParseResult "https" "bsky.app" "/profile/alice.example/feed/a%20b" "" "" "")
              (NeedsHandle "alice.example" "a%20b" "app.bsky.feed.generator")
              eq_refl eq_refl eq_refl)
    as (identifier & record_type & list_name & H1 & H3 & Hr).
  vm_compute in H1, H3. injection H1 as <-. injection H3 as <-.
  unfold resolution in Hr. simpl in Hr. discriminate Hr.
Qed.

(** C8: the two examples of the spec.  The first URL resolves to its
    canonical identifier without any remote call by [process_list]; the
    second gives the triple of handle, name and record type, and it is
    [process_list] that then asks the service for the handle. *)
Theorem spec_examples_resolve :
  convert_url_to_at_uri UrlLib.urlparse "https://bsky.app/profile/did:plc:abc123/lists/xyz"
    = inr (AtUri "at://did:plc:abc123/app.bsky.graph.list/xyz") /\
  (forall R (client : Service R) s,
      resolve_list_uri UrlLib.urlparse client
        "https://bsky.app/profile/did:plc:abc123/lists/xyz" s
      = (s, [], inr "at://did:plc:abc123/app.bsky.graph.list/xyz")) /\
  convert_url_to_at_uri UrlLib.urlparse "https://bsky.app/profile/alice.example/feed/abc"
    = inr (NeedsHandle "alice.example" "abc" "app.bsky.feed.generator") /\
  (forall R (client : Service R) s,
      let '(r', answer) := resolve_handle client "alice.example" (remote s) in
      resolve_list_uri UrlLib.urlparse client
        "https://bsky.app/profile/alice.example/feed/abc" s
      = match answer with
        | inr did =>
            (mkState r' (files s),
             [Print "Resolving handle: alice.example";
              Call (ResolveHandle "alice.example") None;
              Print ("Resolved DID: " +:+ did)],
             inr ("at://" +:+ did +:+ "/app.bsky.feed.generator/abc"))
        | inl e =>
            (mkState r' (files s),
             [Print "Resolving handle: alice.example";
              Call (ResolveHandle "alice.example") (Some e)],
             inl e)
        end).
Proof.
  split; [reflexivity|]. split; [intros; now apply resolve_list_uri_final|].
  split; [reflexivity|].
  intros R client s.
  destruct (resolve_handle client "alice.example" (remote s)) as [r' answer] eqn:Hh.
  unfold resolve_list_uri, mbind, M_bind, bind, lift.
  change (convert_url_to_at_uri UrlLib.urlparse
            "https://bsky.app/profile/alice.example/feed/abc")
    with (@inr exn resolved (NeedsHandle "alice.example" "abc" "app.bsky.feed.generator")).
  cbv beta iota. unfold print, emit, resolve_handle_to_did, remote_call.
  cbn [remote files]. rewrite Hh.
  destruct answer as [e|did]; reflexivity.
Qed.

(** ** The action loop *)

Section ActionLoop.
Context {R : Type}.
Variable client : Service R.

(** One turn of the loop: either the request succeeds, its line is
    printed, the pause is made and [processed] grows; or the request
    raises, the error line is printed and [errors] grows, with no pause. *)
Lemma attempt_user_cases me action u processed errors s :
  exists s1 c,
    action_target c = Some (did u) /\
    ((exists line,
         is_summary (Print line) = false /\
         attempt_user client me action u processed errors s
         = (s1, [Call c None; Print line; Sleep (1 # 2)], inr (processed + 1, errors)))
     \/
     (exists e line,
         is_summary (Print line) = false /\
         attempt_user client me action u processed errors s
         = (s1, [Call c (Some e); Print line], inr (processed, errors + 1)))).
Proof.
  unfold attempt_user, try_except, apply_action.
  destruct (String.eqb action "block").
  - unfold mbind, M_bind, bind, utcnow, remote_call, print, sleep, emit, mret, M_ret, ret.
    destruct (utcnow_isoformat client (remote s)) as [r1 now].
    cbn [remote files].
    destruct (block_create client (Actor.did me)
                (mkBlockRecord "app.bsky.graph.block" (did u) (now +:+ "Z")) r1)
      as [r2 [e|[]]].
    + eexists _, _. split; [|right; eexists _, _; split; [|reflexivity]]; reflexivity.
    + eexists _, _. split; [|left; eexists; split; [|reflexivity]]; reflexivity.
  - unfold mbind, M_bind, bind, remote_call, print, sleep, emit, mret, M_ret, ret.
    destruct (mute_actor client (did u) (remote s)) as [r2 [e|[]]].
    + eexists _, _. split; [|right; eexists _, _; split; [|reflexivity]]; reflexivity.
    + eexists _, _. split; [|left; eexists; split; [|reflexivity]]; reflexivity.
Qed.

(** The loop never raises; its trace holds one attempt per user, in the
    order of the list, each success followed by one pause of 0.5 and each
    failure by none; the counters grow by the successes and the failures. *)
Lemma action_loop_spec me action users : forall processed errors s,
  exists s' tr processed' errors',
    action_loop client me action users processed errors s
    = (s', tr, inr (processed', errors')) /\
    fst (attempts_from tr) = [] /\
    target <$> attempts tr = did <$> users /\
    Forall (fun a => pauses a = if succeeded a then [1 # 2] else []) (attempts tr) /\
    processed' = processed + Z.of_nat (successes tr) /\
    errors' = errors + Z.of_nat (failures tr) /\
    Forall (fun ev => is_summary ev = false) tr.
Proof.
  induction users as [|u rest IH]; intros processed errors s.
  - exists s, [], processed, errors. cbn. repeat split; try lia; constructor.
  - destruct (attempt_user_cases me action u processed errors s)
      as (s1 & c & Hc & [(line & Hline & Hrun)|(e & line & Hline & Hrun)]).
    + destruct (IH (processed + 1) errors s1)
        as (s' & tr & p' & e' & Hloop & Hfst & Htg & Hpa & Hp & He & Hsum).
      eexists s', _, p', e'. split.
      { cbn [action_loop]. unfold mbind, M_bind, bind. rewrite Hrun.
        cbn [fst snd]. rewrite Hloop. reflexivity. }
      unfold successes, failures, attempts in *.
      cbn [app attempts_from]. destruct (attempts_from tr) as [qs atts].
      cbn [fst snd] in *. subst qs. rewrite Hc. cbn [fst snd fmap list_fmap target].
      rewrite bool_decide_eq_true_2 by reflexivity.
      cbn [List.filter succeeded negb length].
      split; [reflexivity|]. split; [now f_equal|]. split; [now constructor|].
      split; [lia|]. split; [lia|].
      repeat (constructor; [first [exact Hline | reflexivity]|]). exact Hsum.
    + destruct (IH processed (errors + 1) s1)
        as (s' & tr & p' & e' & Hloop & Hfst & Htg & Hpa & Hp & He & Hsum).
      eexists s', _, p', e'. split.
      { cbn [action_loop]. unfold mbind, M_bind, bind. rewrite Hrun.
        cbn [fst snd]. rewrite Hloop. reflexivity. }
      unfold successes, failures, attempts in *.
      cbn [app attempts_from]. destruct (attempts_from tr) as [qs atts].
      cbn [fst snd] in *. subst qs. rewrite Hc. cbn [fst snd fmap list_fmap target].
      rewrite bool_decide_eq_false_2 by discriminate.
      cbn [List.filter succeeded negb length].
      split; [reflexivity|]. split; [now f_equal|]. split; [now constructor|].
      split; [lia|]. split; [lia|].
      repeat (constructor; [first [exact Hline | reflexivity]|]). exact Hsum.
Qed.

End ActionLoop.

Lemma successes_failures_length tr :
  (successes tr + failures tr = length (attempts tr))%nat.
Proof.
  unfold successes, failures. induction (attempts tr) as [|a l IH]; [reflexivity|].
  cbn [List.filter]. destruct (succeeded a); cbn [negb length]; lia.
Qed.

(** C2: the loop returns its two counters for every list of users and every
    behaviour of the service; they add up to the number of users, they count
    the requests that succeeded and those that raised; every user is
    attempted, in order, whatever happened to the users before; and with
    exactly one failure [processed] is [N - 1] and [errors] is [1]. *)
Theorem counters_account_for_every_user {R} (client : Service R) me action users s :
  exists s' tr processed errors,
    action_loop client me action users 0 0 s = (s', tr, inr (processed, errors)) /\
    processed + errors = Z.of_nat (length users) /\
    processed = Z.of_nat (successes tr) /\
    errors = Z.of_nat (failures tr) /\
    target <$> attempts tr = did <$> users /\
    (failures tr = 1%nat ->
     processed = Z.of_nat (length users) - 1 /\ errors = 1).
Proof.
  destruct (action_loop_spec client me action users 0 0 s)
    as (s' & tr & p' & e' & Hloop & _ & Htg & _ & Hp & He & _).
  exists s', tr, p', e'.
  assert (Hlen : length (attempts tr) = length users).
  { rewrite <- (length_fmap target), Htg. apply length_fmap. }
  pose proof (successes_failures_length tr) as Hsf.
  repeat split; try assumption; try lia.
Qed.

Lemma counters_account_for_every_user_witness :
  snd (action_loop (Script.service [] [] 1) Script.me "block" Script.three_users 0 0
         Script.start) = inr (2, 1).
Proof.
  destruct (counters_account_for_every_user (Script.service [] [] 1) Script.me "block"
              Script.three_users Script.start)
    as (s' & tr & processed & errors & Hloop & _ & _ & _ & _ & Hone).
  rewrite Hloop. cbn [snd].
  vm_compute in Hloop. injection Hloop as _ <- _ _.
  destruct (Hone eq_refl) as [-> ->]. reflexivity.
Defined.

(** C3, as the program has it: the pause of 0.5 is made after each request
    that succeeded, once, and after no request that raised; the next user
    is then attempted at once. *)
Theorem pause_follows_success_only {R} (client : Service R) me action users s :
  exists s' tr counters,
    action_loop client me action users 0 0 s = (s', tr, inr counters) /\
    target <$> attempts tr = did <$> users /\
    Forall (fun a => pauses a = if succeeded a then [1 # 2] else []) (attempts tr).
Proof.
  destruct (action_loop_spec client me action users 0 0 s)
    as (s' & tr & p' & e' & Hloop & _ & Htg & Hpa & _).
  now exists s', tr, (p', e').
Qed.

(** C3, as the spec has it, fails: when the request for the second of three
    users raises, no pause separates it from the request for the third. *)
Lemma no_pause_after_failure :
  let tr := snd (fst (action_loop (Script.service [] [] 1) Script.me "block"
                        Script.three_users 0 0 Script.start)) in
  attempts tr = [mkAttempt "did:plc:x" true [1 # 2];
                 mkAttempt "did:plc:y" false [];
                 mkAttempt "did:plc:z" true [1 # 2]] /\
  ~ Forall (fun a => pauses a = [1 # 2]) (attempts tr).
Proof.
  assert (H : attempts (snd (fst (action_loop (Script.service [] [] 1) Script.me "block"
                                    Script.three_users 0 0 Script.start)))
              = [mkAttempt "did:plc:x" true [1 # 2];
                 mkAttempt "did:plc:y" false [];
                 mkAttempt "did:plc:z" true [1 # 2]]) by (vm_compute; reflexivity).
  cbv zeta. split; [exact H|]. rewrite H. intros HF.
  inversion HF as [|a l _ HF']. inversion HF' as [|a' l' Hy _]. discriminate Hy.
Qed.

(** ** Feed enumeration *)

#[local] Instance user_of_pair_inj : Inj (=) (=) user_of_pair.
Proof. intros [d1 h1] [d2 h2] H. now inversion H. Qed.

Lemma elem_of_feed_authors (feed : list FeedViewPost) (p : string * string) :
  p ∈ feed_authors feed <->
  exists item a,
    item ∈ feed /\ author (post item) = Some a /\ p = (Actor.did a, Actor.handle a).
Proof.
  unfold feed_authors.
  enough (Hgen : forall acc : gset (string * string),
             p ∈ foldl (fun users item =>
                          match author (post item) with
                          | Some a => {[ (Actor.did a, Actor.handle a) ]} ∪ users
                          | None => users
                          end) acc feed <->
             p ∈ acc \/
             exists item a,
               item ∈ feed /\ author (post item) = Some a /\
               p = (Actor.did a, Actor.handle a)).
  { rewrite Hgen. split; [intros [H|H]; [now apply elem_of_empty in H|exact H]|now right]. }
  induction feed as [|item feed IH]; intros acc; cbn [foldl].
  - split; [now left|]. intros [H|(item & a & Hin & _)]; [exact H|].
    now apply elem_of_nil in Hin.
  - rewrite IH. split.
    + intros [H|(item' & a & Hin & Ha & Hp)].
      * destruct (author (post item)) as [a|] eqn:Ha.
        -- apply elem_of_union in H as [H|H]; [|now left].
           apply elem_of_singleton in H. right. exists item, a.
           split; [apply list_elem_of_here|]. now split.
        -- now left.
      * right. exists item', a. split; [now apply list_elem_of_further|]. now split.
    + intros [H|(item' & a & Hin & Ha & Hp)].
      * left. destruct (author (post item)); [apply elem_of_union; now right|exact H].
      * apply elem_of_cons in Hin as [->|Hin].
        -- left. rewrite Ha, Hp. apply elem_of_union. left. now apply elem_of_singleton.
        -- right. now exists item', a.
Qed.

Lemma length_feed_authors (feed : list FeedViewPost) :
  (length (elements (feed_authors feed)) <= length feed)%nat.
Proof.
  set (pair_of := fun item : FeedViewPost =>
                    (fun a => (Actor.did a, Actor.handle a)) <$> author (post item)).
  transitivity (length (omap pair_of feed)).
  - apply submseteq_length, NoDup_submseteq; [apply NoDup_elements|].
    intros p Hp. apply elem_of_elements, elem_of_feed_authors in Hp
      as (item & a & Hin & Ha & ->).
    apply list_elem_of_omap. exists item. split; [exact Hin|].
    unfold pair_of. now rewrite Ha.
  - clear. induction feed as [|item feed IH]; [reflexivity|].
    cbn [omap list_omap]. destruct (pair_of item); cbn [length]; lia.
Qed.

(** X17: when the service answers the feed request, [get_feed_users] makes
    that one call and returns the authors of the items and nobody else:
    items without an author are skipped, an author shown several times
    under one handle is returned once, and there are at most as many users
    as items in the answer, hence at most [limit] when the service sent no
    more than it was asked for.  (The set holds pairs of id and handle: an
    author shown under two handles is not merged.) *)
Theorem feed_users_distinct_pairs {R} (client : Service R) uri limit s r' feed :
  get_feed client uri limit (remote s) = (r', inr feed) ->
  exists users,
    get_feed_users client uri limit s
    = (mkState r' (files s), [Call (GetFeed uri limit) None], inr users) /\
    NoDup users /\
    (forall u, u ∈ users <->
               exists item a,
                 item ∈ feed /\ author (post item) = Some a /\
                 u = mkUser (Actor.did a) (Actor.handle a)) /\
    (length users <= length feed)%nat /\
    (Z.of_nat (length feed) <= limit -> Z.of_nat (length users) <= limit).
Proof.
  intros Hfeed. exists (user_of_pair <$> elements (feed_authors feed)).
  split.
  { unfold get_feed_users, try_except, mbind, M_bind, bind, remote_call.
    rewrite Hfeed. reflexivity. }
  split.
  { apply NoDup_fmap_2; [apply user_of_pair_inj|apply NoDup_elements]. }
  split.
  { intros u. rewrite list_elem_of_fmap. split.
    - intros (p & -> & Hp). apply elem_of_elements, elem_of_feed_authors in Hp
        as (item & a & Hin & Ha & ->). now exists item, a.
    - intros (item & a & Hin & Ha & ->). exists (Actor.did a, Actor.handle a).
      split; [reflexivity|]. apply elem_of_elements, elem_of_feed_authors.
      now exists item, a. }
  rewrite length_fmap. pose proof (length_feed_authors feed) as Hlen.
  split; [exact Hlen|lia].
Qed.

Lemma feed_users_distinct_pairs_witness :
  exists users,
    get_feed_users
      (Script.service [Script.item "did:plc:a" "a.example"; Script.item "did:plc:a" "a.example";
                       mkFeedViewPost (mkPostView None)] [] 0)
      "at://did:plc:f/app.bsky.feed.generator/abc" 100 Script.start
    = (mkState 0%nat (files Script.start),
       [Call (GetFeed "at://did:plc:f/app.bsky.feed.generator/abc" 100) None], inr users) /\
    NoDup users /\
    Z.of_nat (length users) <= 100.
Proof.
  destruct (feed_users_distinct_pairs
              (Script.service [Script.item "did:plc:a" "a.example";
                               Script.item "did:plc:a" "a.example";
                               mkFeedViewPost (mkPostView None)] [] 0)
              "at://did:plc:f/app.bsky.feed.generator/abc" 100 Script.start
              0%nat
              [Script.item "did:plc:a" "a.example"; Script.item "did:plc:a" "a.example";
               mkFeedViewPost (mkPostView None)]
              eq_refl)
    as (users & Hrun & Hnodup & _ & _ & Hlimit).
  exists users. split; [exact Hrun|]. split; [exact Hnodup|].
  apply Hlimit. cbn [length]. lia.
Defined.

(** C1: where the feed shows one author under two handles, the users
    returned are not unique by id, as the claim and the function's own
    docstring ("Get unique users") have it: the set holds pairs of id and
    handle, both pairs are returned, and the action phase then sends two
    requests for the same account. *)
Theorem same_id_two_handles_returned_twice :
  let client := Script.service [Script.item "did:plc:a" "old.example";
                                Script.item "did:plc:a" "new.example"] [] 0 in
  (exists users,
      snd (get_feed_users client "at://did:plc:f/app.bsky.feed.generator/abc" 100
             Script.start) = inr users /\
      did <$> users = ["did:plc:a"; "did:plc:a"] /\
      ~ NoDup (did <$> users)) /\
  target <$> attempts
               (trace_of (process_list UrlLib.urlparse client "me.example" "secret"
                            "at://did:plc:f/app.bsky.feed.generator/abc" "block" false
                            "out.json" 100) Script.start)
  = ["did:plc:a"; "did:plc:a"].
Proof.
  cbv zeta. split; [|vm_compute; reflexivity].
  eexists. split; [vm_compute; reflexivity|]. split; [reflexivity|].
  intros H. inversion H as [|x l Hnotin _]. apply Hnotin. apply list_elem_of_here.
Qed.

(** ** Runs and their traces *)

Section RunLemmas.
Context {R : Type}.
Implicit Types (P : event -> Prop) (s : state R).

Lemma run_bind {A B} (m : M R A) (k : A -> M R B) s :
  (m ≫= k) s =
  match m s with
  | (s1, t1, inl e) => (s1, t1, inl e)
  | (s1, t1, inr a) => let '(s2, t2, r) := k a s1 in (s2, t1 ++ t2, r)
  end.
Proof. reflexivity. Qed.

Lemma always_ret P {A} (a : A) : Always P (mret a : M R A).
Proof. intros s. constructor. Qed.

Lemma always_raise P {A} e : Always P (raise e : M R A).
Proof. intros s. constructor. Qed.

Lemma always_lift P {A} (r : result A) : Always P (lift r : M R A).
Proof. intros s. constructor. Qed.

Lemma always_emit P ev : P ev -> Always P (emit ev : M R unit).
Proof. intros H s. now repeat constructor. Qed.

Lemma always_dump P (svc : Service R) path content :
  P (WriteFile path content) -> Always P (dump_to svc path content).
Proof.
  intros H s. unfold trace_of, dump_to.
  destruct (open_for_writing svc path (remote s)) as [r' [e|[]]]; now repeat constructor.
Qed.

Lemma always_remote_call P {A} c (f : R -> R * result A) :
  (forall r, P (Call c r)) -> Always P (remote_call c f).
Proof.
  intros H s. unfold trace_of, remote_call. destruct (f (remote s)) as [r' res].
  now repeat constructor.
Qed.

Lemma always_utcnow P (client : Service R) : Always P (utcnow client).
Proof.
  intros s. unfold trace_of, utcnow. destruct (utcnow_isoformat client (remote s)).
  constructor.
Qed.

Lemma always_bind P {A B} (m : M R A) (k : A -> M R B) :
  Always P m -> (forall a, Always P (k a)) -> Always P (m ≫= k).
Proof.
  intros Hm Hk s. specialize (Hm s). unfold trace_of in *. rewrite run_bind.
  destruct (m s) as [[s1 t1] [e|a]]; [exact Hm|].
  specialize (Hk a s1). unfold trace_of in Hk.
  destruct (k a s1) as [[s2 t2] r]. cbn [fst snd] in *. now apply Forall_app.
Qed.

Lemma always_try P {A} (m : M R A) (h : exn -> M R A) :
  Always P m -> (forall e, Always P (h e)) -> Always P (try_except m h).
Proof.
  intros Hm Hh s. specialize (Hm s). unfold trace_of, try_except in *.
  destruct (m s) as [[s1 t1] [e|a]]; [|exact Hm].
  specialize (Hh e s1). unfold trace_of in Hh.
  destruct (h e s1) as [[s2 t2] r]. cbn [fst snd] in *. now apply Forall_app.
Qed.

Lemma keeps_ret {A} (a : A) : KeepsFiles (mret a : M R A).
Proof. intros s. reflexivity. Qed.

Lemma keeps_raise {A} e : KeepsFiles (raise e : M R A).
Proof. intros s. reflexivity. Qed.

Lemma keeps_lift {A} (r : result A) : KeepsFiles (lift r : M R A).
Proof. intros s. reflexivity. Qed.

Lemma keeps_emit ev : KeepsFiles (emit ev : M R unit).
Proof. intros s. reflexivity. Qed.

Lemma keeps_remote_call {A} c (f : R -> R * result A) : KeepsFiles (remote_call c f).
Proof.
  intros s. unfold final_state, remote_call. now destruct (f (remote s)).
Qed.

Lemma keeps_bind {A B} (m : M R A) (k : A -> M R B) :
  KeepsFiles m -> (forall a, KeepsFiles (k a)) -> KeepsFiles (m ≫= k).
Proof.
  intros Hm Hk s. specialize (Hm s). unfold final_state in *. rewrite run_bind.
  destruct (m s) as [[s1 t1] [e|a]]; [exact Hm|].
  specialize (Hk a s1). unfold final_state in Hk.
  destruct (k a s1) as [[s2 t2] r]. cbn [fst snd] in *. congruence.
Qed.

Lemma keeps_try {A} (m : M R A) (h : exn -> M R A) :
  KeepsFiles m -> (forall e, KeepsFiles (h e)) -> KeepsFiles (try_except m h).
Proof.
  intros Hm Hh s. specialize (Hm s). unfold final_state, try_except in *.
  destruct (m s) as [[s1 t1] [e|a]]; [|exact Hm].
  specialize (Hh e s1). unfold final_state in Hh.
  destruct (h e s1) as [[s2 t2] r]. cbn [fst snd] in *. congruence.
Qed.

End RunLemmas.

(** Each line the program prints starts with a text of its own; only the
    line of the counters starts with [Completed] after a newline. *)
Ltac quiet_event := intros; repeat split; reflexivity.

Ltac runs :=
  repeat (intros;
          lazymatch goal with
          | |- Always _ (mbind _ _) => apply always_bind
          | |- Always _ (try_except _ _) => apply always_try
          | |- Always _ (mret _) => apply always_ret
          | |- Always _ (raise _) => apply always_raise
          | |- Always _ (lift _) => apply always_lift
          | |- Always _ (print _) => apply always_emit; quiet_event
          | |- Always _ (remote_call _ _) => apply always_remote_call; quiet_event
          | |- Always _ (dump_to _ _ _) => apply always_dump; quiet_event
          | |- Always _ (utcnow _) => apply always_utcnow
          | |- Always _ (match ?x with _ => _ end) => destruct x
          | |- KeepsFiles (mbind _ _) => apply keeps_bind
          | |- KeepsFiles (try_except _ _) => apply keeps_try
          | |- KeepsFiles (mret _) => apply keeps_ret
          | |- KeepsFiles (raise _) => apply keeps_raise
          | |- KeepsFiles (lift _) => apply keeps_lift
          | |- KeepsFiles (print _) => apply keeps_emit
          | |- KeepsFiles (remote_call _ _) => apply keeps_remote_call
          | |- KeepsFiles (match ?x with _ => _ end) => destruct x
          end).

(** ** The phases before the file is written *)

Section Phases.
Context {R : Type}.
Variable urlparse : string -> result ParseResult.
Variable client : Service R.


Lemma keeps_resolve_list_uri list_input :
  KeepsFiles (resolve_list_uri urlparse client list_input).
Proof. unfold resolve_list_uri, resolve_handle_to_did. runs. Qed.


Lemma keeps_enumerate_users list_uri limit :
  KeepsFiles (enumerate_users client list_uri limit).
Proof. unfold enumerate_users, get_feed_users. runs. Qed.




End Phases.


(** ** The whole run *)

Section WholeRun.
Context {R : Type}.
Variable urlparse : string -> result ParseResult.
Variable client : Service R.


End WholeRun.



(** ** Dispatch between feed and list *)

Lemma contains_cons (p : string) (c : ascii) (s : string) :
  Str.contains p (String c s) = Str.startswith p (String c s) || Str.contains p s.
Proof. reflexivity. Qed.

Lemma contains_append (p a s : string) :
  Str.contains p s = true -> Str.contains p (a +:+ s) = true.
Proof.
  intros H. induction a as [|c a IH]; [exact H|].
  change (String c a +:+ s) with (String c (a +:+ s)).
  rewrite contains_cons, IH. apply orb_true_r.
Qed.

(** The events of the enumeration, in full. *)
Lemma enumerate_users_trace {R} (client : Service R) list_uri limit s :
  trace_of (enumerate_users client list_uri limit) s
  = if Str.contains "feed.generator" list_uri
    then
      Print ("Processing feed (fetching up to " +:+ pretty limit +:+ " posts)...")
      :: match snd (get_feed client list_uri limit (remote s)) with
         | inl e => [Call (GetFeed list_uri limit) (Some e);
                     Print ("Error getting feed: " +:+ str e)]
         | inr _ => [Call (GetFeed list_uri limit) None]
         end
    else
      [Print "Processing list...";
       Call (GetList list_uri) (raised (snd (get_list client list_uri (remote s))))].
Proof.
  unfold trace_of, enumerate_users.
  destruct (Str.contains "feed.generator" list_uri).
  - rewrite run_bind. cbn [print emit].
    unfold get_feed_users, try_except. rewrite run_bind. unfold remote_call.
    cbn [remote files].
    destruct (get_feed client list_uri limit (remote s)) as [r' [e|feed]]; reflexivity.
  - rewrite run_bind. cbn [print emit]. rewrite run_bind. unfold remote_call.
    cbn [remote files].
    destruct (get_list client list_uri (remote s)) as [r' [e|items]]; reflexivity.
Qed.

(** C10: the enumeration asks the service for a feed exactly when
    [feed.generator] occurs somewhere in the identifier, and for a list
    exactly when it does not; so the identifier of a list whose name
    contains [feed.generator] is read as a feed, and never as a list. *)
Theorem dispatch_by_substring {R} (client : Service R) list_uri limit s :
  let tr := trace_of (enumerate_users client list_uri limit) s in
  (Str.contains "feed.generator" list_uri = true <->
   exists r, Call (GetFeed list_uri limit) r ∈ tr) /\
  (Str.contains "feed.generator" list_uri = false <->
   exists r, Call (GetList list_uri) r ∈ tr) /\
  (forall did name,
      list_uri = "at://" +:+ did +:+ "/" +:+ "app.bsky.graph.list" +:+ "/" +:+ name ->
      Str.contains "feed.generator" name = true ->
      (exists r, Call (GetFeed list_uri limit) r ∈ tr) /\
      (forall r, Call (GetList list_uri) r ∉ tr)).
Proof.
  cbv zeta. rewrite enumerate_users_trace.
  assert (Hfeed : Str.contains "feed.generator" list_uri = true ->
                  (exists r, Call (GetFeed list_uri limit) r ∈
                     Print ("Processing feed (fetching up to " +:+ pretty limit
                            +:+ " posts)...")
                     :: match snd (get_feed client list_uri limit (remote s)) with
                        | inl e => [Call (GetFeed list_uri limit) (Some e);
                                    Print ("Error getting feed: " +:+ str e)]
                        | inr _ => [Call (GetFeed list_uri limit) None]
                        end) /\
                  (forall r, Call (GetList list_uri) r ∉
                     Print ("Processing feed (fetching up to " +:+ pretty limit
                            +:+ " posts)...")
                     :: match snd (get_feed client list_uri limit (remote s)) with
                        | inl e => [Call (GetFeed list_uri limit) (Some e);
                                    Print ("Error getting feed: " +:+ str e)]
                        | inr _ => [Call (GetFeed list_uri limit) None]
                        end)).
  { intros _. destruct (snd (get_feed client list_uri limit (remote s))) as [e|feed].
    - split; [exists (Some e); apply list_elem_of_further, list_elem_of_here|].
      intros r Hin. repeat (apply elem_of_cons in Hin as [Hin|Hin]; [discriminate Hin|]).
      now apply elem_of_nil in Hin.
    - split; [exists None; apply list_elem_of_further, list_elem_of_here|].
      intros r Hin. repeat (apply elem_of_cons in Hin as [Hin|Hin]; [discriminate Hin|]).
      now apply elem_of_nil in Hin. }
  destruct (Str.contains "feed.generator" list_uri) eqn:Hc.
  - destruct (Hfeed eq_refl) as [Hyes Hno].
    split; [split; [intros _; exact Hyes|reflexivity]|].
    split; [split; [discriminate|intros [r Hin]; now apply Hno in Hin]|].
    intros did name _ _. now split.
  - split.
    { split; [discriminate|]. intros [r Hin].
      repeat (apply elem_of_cons in Hin as [Hin|Hin]; [discriminate Hin|]).
      now apply elem_of_nil in Hin. }
    split.
    { split; [|reflexivity]. intros _. eexists.
      apply list_elem_of_further, list_elem_of_here. }
    intros did name -> Hname. exfalso.
    enough (Str.contains "feed.generator"
              ("at://" +:+ did +:+ "/" +:+ "app.bsky.graph.list" +:+ "/" +:+ name) = true)
      by congruence.
    now do 5 apply contains_append.
Qed.

Lemma dispatch_by_substring_witness :
  (exists r,
      Call (GetFeed "at://did:plc:o/app.bsky.graph.list/not.a.feed.generator" 100) r
      ∈ trace_of (enumerate_users (Script.service [] Script.two_members 0)
                    "at://did:plc:o/app.bsky.graph.list/not.a.feed.generator" 100)
          Script.start) /\
  (forall r,
      Call (GetList "at://did:plc:o/app.bsky.graph.list/not.a.feed.generator") r
      ∉ trace_of (enumerate_users (Script.service [] Script.two_members 0)
                    "at://did:plc:o/app.bsky.graph.list/not.a.feed.generator" 100)
          Script.start).
Proof.
  destruct (dispatch_by_substring (Script.service [] Script.two_members 0)
              "at://did:plc:o/app.bsky.graph.list/not.a.feed.generator" 100 Script.start)
    as (_ & _ & H).
  apply (H "did:plc:o" "not.a.feed.generator"); reflexivity.
Defined.


(** * Further properties *)

(** ** Path segments *)

Lemma split_not_nil (sep : ascii) (s : string) : Str.split sep s <> [].
Proof.
  destruct s as [|c s]; cbn [Str.split]; [discriminate|].
  destruct (Ascii.eqb c sep); [discriminate|].
  destruct (Str.split sep s); discriminate.
Qed.

Lemma split_append_sep (sep : ascii) (a b : string) :
  Str.split sep (a +:+ String sep b) = Str.split sep a ++ Str.split sep b.
Proof.
  induction a as [|c a IH].
  - change ("" +:+ String sep b) with (String sep b).
    cbn [Str.split]. now rewrite Ascii.eqb_refl.
  - change (String c a +:+ String sep b) with (String c (a +:+ String sep b)).
    cbn [Str.split]. rewrite IH. destruct (Ascii.eqb c sep); [reflexivity|].
    pose proof (split_not_nil sep a) as Hne.
    destruct (Str.split sep a) as [|p ps]; [contradiction|reflexivity].
Qed.

Lemma split_no_sep (sep : ascii) (s : string) :
  Forall (fun p => Str.mem sep p = false) (Str.split sep s).
Proof.
  induction s as [|c s IH]; cbn [Str.split]; [now repeat constructor|].
  destruct (Ascii.eqb c sep) eqn:Hc; [now constructor|].
  pose proof (split_not_nil sep s) as Hne.
  destruct (Str.split sep s) as [|p ps]; [contradiction|].
  inversion IH as [|? ? Hp Hps]; subst. constructor; [|exact Hps].
  cbn [Str.mem]. rewrite Hp. rewrite Ascii.eqb_sym, Hc. reflexivity.
Qed.

Lemma split_no_sep_id (sep : ascii) (s : string) :
  Str.mem sep s = false -> Str.split sep s = [s].
Proof.
  induction s as [|c s IH]; [reflexivity|].
  cbn [Str.mem Str.split]. intros H. apply orb_false_elim in H as [Hc Hs].
  rewrite Ascii.eqb_sym, Hc. now rewrite (IH Hs).
Qed.

Lemma path_parts_segments_ok (path : string) :
  Forall (fun p => p <> "" /\ Str.mem "/" p = false) (path_parts path).
Proof.
  unfold path_parts. apply Forall_forall. intros p Hp.
  apply list_elem_of_In, List.filter_In in Hp as [Hin Hne]. split.
  - intros ->. discriminate Hne.
  - pose proof (split_no_sep "/" path) as Hall.
    rewrite Forall_forall in Hall. apply Hall. now apply list_elem_of_In.
Qed.

(** X12: the segments of a path are read piece by piece: the segments of
    [a/b] are those of [a] followed by those of [b], whatever [a] and [b]
    are; a text without slash is its own single segment, unless it is
    empty, in which case it adds nothing (so leading, trailing and doubled
    slashes do not count); and no segment is empty or holds a slash. *)
Theorem path_parts_compose (a b : string) :
  path_parts (a +:+ "/" +:+ b) = path_parts a ++ path_parts b /\
  path_parts "" = [] /\
  (forall seg c, Str.mem "/" (String c seg) = false ->
                 path_parts (String c seg) = [String c seg]) /\
  Forall (fun p => p <> "" /\ Str.mem "/" p = false) (path_parts a).
Proof.
  split; [|split; [reflexivity|split]].
  - unfold path_parts.
    change ("/" +:+ b) with (String "/" b).
    rewrite split_append_sep. apply List.filter_app.
  - intros seg c H. unfold path_parts. rewrite (split_no_sep_id _ _ H). reflexivity.
  - apply path_parts_segments_ok.
Qed.

Lemma path_parts_compose_witness :
  path_parts "x.example" = ["x.example"].
Proof.
  destruct (path_parts_compose "" "") as (_ & _ & H & _).
  apply (H ".example" "x"%char). reflexivity.
Defined.

(** ** The shape of what the resolver returns *)

Lemma path_parts_segment (path seg : string) :
  seg ∈ path_parts path -> seg <> "" /\ Str.mem "/" seg = false.
Proof.
  intros Hin. pose proof (path_parts_segments_ok path) as Hall.
  rewrite Forall_forall in Hall. now apply Hall.
Qed.

(** X10: whatever a web URL the resolver accepts, its result is well
    formed: the identifier and the name are non-empty and without slash,
    the record type is one of the two literals, a final identifier is
    [at://] + identifier + [/] + record type + [/] + name with an identifier
    that starts with [did:], and an identifier left to be resolved does not
    start with [did:]. *)
Theorem resolver_result_well_formed urlparse url parsed r :
  Str.startswith "at://" url = false ->
  urlparse url = inr parsed ->
  convert_url_to_at_uri urlparse url = inr r ->
  exists identifier record_type list_name,
    identifier <> "" /\ Str.mem "/" identifier = false /\
    list_name <> "" /\ Str.mem "/" list_name = false /\
    (record_type = "app.bsky.feed.generator" \/ record_type = "app.bsky.graph.list") /\
    match r with
    | AtUri uri =>
        Str.startswith "did:" identifier = true /\
        uri = "at://" +:+ identifier +:+ "/" +:+ record_type +:+ "/" +:+ list_name
    | NeedsHandle handle name type =>
        Str.startswith "did:" identifier = false /\
        handle = identifier /\ name = list_name /\ type = record_type
    end.
Proof.
  intros Hat Hp Hr.
  destruct (String.eqb (netloc parsed) "bsky.app") eqn:Hn.
  - apply String.eqb_eq in Hn.
    rewrite (convert_accepted_host urlparse url parsed Hat Hp Hn) in Hr.
    destruct (path_parts (path parsed))
      as [|p0 [|identifier [|feed_type [|list_name rest]]]] eqn:Hparts;
      try discriminate.
    destruct (String.eqb p0 "profile"); [|discriminate].
    assert (Hid : identifier ∈ path_parts (path parsed))
      by (rewrite Hparts; apply list_elem_of_further, list_elem_of_here).
    assert (Hname : list_name ∈ path_parts (path parsed))
      by (rewrite Hparts; do 3 apply list_elem_of_further; apply list_elem_of_here).
    apply path_parts_segment in Hid as [Hid1 Hid2].
    apply path_parts_segment in Hname as [Hname1 Hname2].
    unfold record_type_of in Hr.
    exists identifier,
      (if String.eqb feed_type "feed" then "app.bsky.feed.generator"
       else "app.bsky.graph.list"),
      list_name.
    repeat (split; [assumption|]).
    split; [destruct (String.eqb feed_type "feed"); [now left|now right]|].
    destruct (String.eqb feed_type "feed").
    + injection Hr as <-. unfold resolution.
      destruct (Str.startswith "did:" identifier); now repeat split.
    + destruct (String.eqb feed_type "lists"); [|discriminate].
      injection Hr as <-. unfold resolution.
      destruct (Str.startswith "did:" identifier); now repeat split.
  - unfold convert_url_to_at_uri in Hr. rewrite Hat, Hp in Hr. cbn [bindE] in Hr.
    rewrite Hn in Hr. discriminate.
Qed.

Lemma resolver_result_well_formed_witness :
  exists identifier record_type list_name,
    identifier <> "" /\ Str.mem "/" identifier = false /\
    list_name <> "" /\ Str.mem "/" list_name = false /\
    (record_type = "app.bsky.feed.generator" \/ record_type = "app.bsky.graph.list") /\
    Str.startswith "did:" identifier = false /\
    "alice.example" = identifier /\ "abc" = list_name /\
    "app.bsky.feed.generator" = record_type.
Proof.
  apply (resolver_result_well_formed UrlLib.urlparse
           "https://bsky.app/profile/alice.example/feed/abc"
           (mkParseResult "https" "bsky.app" "/profile/alice.example/feed/abc" "" "" "")
           (NeedsHandle "alice.example" "abc" "app.bsky.feed.generator"));
    reflexivity.
Defined.

(** X11: the resolver looks at the network location and at the first four
    non-empty segments of the path, and at nothing else: two inputs that
    agree on these resolve alike (or fail alike), whatever their scheme,
    query, fragment, further segments or empty segments. *)
Theorem resolver_reads_four_segments urlparse url url' parsed parsed' :
  Str.startswith "at://" url = false ->
  Str.startswith "at://" url' = false ->
  urlparse url = inr parsed ->
  urlparse url' = inr parsed' ->
  netloc parsed = netloc parsed' ->
  take 4 (path_parts (path parsed)) = take 4 (path_parts (path parsed')) ->
  convert_url_to_at_uri urlparse url = convert_url_to_at_uri urlparse url'.
Proof.
  intros Hat Hat' Hp Hp' Hn Hparts.
  destruct (String.eqb (netloc parsed) "bsky.app") eqn:Hb.
  - apply String.eqb_eq in Hb. assert (Hb' : netloc parsed' = "bsky.app") by congruence.
    rewrite (convert_accepted_host urlparse url parsed Hat Hp Hb).
    rewrite (convert_accepted_host urlparse url' parsed' Hat' Hp' Hb').
    destruct (path_parts (path parsed)) as [|a [|b [|c [|d rest]]]];
      destruct (path_parts (path parsed')) as [|a' [|b' [|c' [|d' rest']]]];
      cbn [take] in Hparts; try discriminate Hparts; try reflexivity.
    now injection Hparts as -> -> -> ->.
  - unfold convert_url_to_at_uri. rewrite Hat, Hat', Hp, Hp'. cbn [bindE].
    rewrite <- Hn, Hb. reflexivity.
Qed.

Lemma resolver_reads_four_segments_witness :
  convert_url_to_at_uri UrlLib.urlparse "https://bsky.app/profile/alice.example/feed/abc"
  = convert_url_to_at_uri UrlLib.urlparse
      "http://bsky.app//profile/alice.example/feed//abc/more/?ref=share#top".
Proof.
  apply (resolver_reads_four_segments UrlLib.urlparse
           "https://bsky.app/profile/alice.example/feed/abc"
           "http://bsky.app//profile/alice.example/feed//abc/more/?ref=share#top"
           (mkParseResult "https" "bsky.app" "/profile/alice.example/feed/abc" "" "" "")
           (mkParseResult "http" "bsky.app" "//profile/alice.example/feed//abc/more/"
              "" "ref=share" "top"));
    reflexivity.
Defined.

(** ** Files and exceptions over whole runs *)

Section MoreRunLemmas.
Context {R : Type}.
Implicit Types (s : state R).

Lemma keeps_utcnow (client : Service R) : KeepsFiles (utcnow client).
Proof.
  intros s. unfold final_state, utcnow. now destruct (utcnow_isoformat client (remote s)).
Qed.

Lemma writes_only_keeps {A} path (m : M R A) : KeepsFiles m -> WritesOnly path m.
Proof. intros H s other _. now rewrite H. Qed.

Lemma writes_only_dump (svc : Service R) path content :
  WritesOnly path (dump_to svc path content).
Proof.
  intros s other Hne. unfold final_state, dump_to.
  destruct (open_for_writing svc path (remote s)) as [r' [e|[]]]; cbn [fst files];
    [reflexivity|now apply lookup_insert_ne].
Qed.

Lemma writes_only_bind {A B} path (m : M R A) (k : A -> M R B) :
  WritesOnly path m -> (forall a, WritesOnly path (k a)) -> WritesOnly path (m ≫= k).
Proof.
  intros Hm Hk s other Hne. specialize (Hm s other Hne).
  unfold final_state in *. rewrite run_bind.
  destruct (m s) as [[s1 t1] [e|a]]; [exact Hm|].
  specialize (Hk a s1 other Hne). unfold final_state in Hk.
  destruct (k a s1) as [[s2 t2] r]. cbn [fst snd] in *. congruence.
Qed.

Lemma writes_only_try {A} path (m : M R A) (h : exn -> M R A) :
  WritesOnly path m -> (forall e, WritesOnly path (h e)) -> WritesOnly path (try_except m h).
Proof.
  intros Hm Hh s other Hne. specialize (Hm s other Hne).
  unfold final_state, try_except in *.
  destruct (m s) as [[s1 t1] [e|a]]; [|exact Hm].
  specialize (Hh e s1 other Hne). unfold final_state in Hh.
  destruct (h e s1) as [[s2 t2] r]. cbn [fst snd] in *. congruence.
Qed.

Variable client : Service R.

Lemma keeps_attempt_user me action u processed errors :
  KeepsFiles (attempt_user client me action u processed errors).
Proof.
  unfold attempt_user, apply_action, sleep, print.
  apply keeps_try; [|intros; apply keeps_bind; [apply keeps_emit|intros; apply keeps_ret]].
  apply keeps_bind.
  - destruct (String.eqb action "block").
    + apply keeps_bind; [apply keeps_utcnow|intros now].
      apply keeps_bind; [apply keeps_remote_call|intros; apply keeps_emit].
    + apply keeps_bind; [apply keeps_remote_call|intros; apply keeps_emit].
  - intros. apply keeps_bind; [apply keeps_emit|intros; apply keeps_ret].
Qed.

Lemma keeps_action_loop me action users : forall processed errors,
  KeepsFiles (action_loop client me action users processed errors).
Proof.
  induction users as [|u rest IH]; intros processed errors; cbn [action_loop].
  - apply keeps_ret.
  - apply keeps_bind; [apply keeps_attempt_user|intros; apply IH].
Qed.

Lemma keeps_dry_run_report action users : KeepsFiles (dry_run_report (R:=R) action users).
Proof.
  induction users as [|u rest IH]; cbn [dry_run_report].
  - apply keeps_ret.
  - apply keeps_bind; [apply keeps_emit|intros; apply IH].
Qed.

End MoreRunLemmas.

Section WholeRunMore.
Context {R : Type}.
Variable urlparse : string -> result ParseResult.
Variable client : Service R.

(** X1: [process_list] never raises: whatever the service does (login
    refused, handle unknown, feed or list unreadable, requests refused) and
    whatever the input, the run ends normally. *)
Theorem process_list_never_raises
        username password list_input action dry_run output_file limit s :
  snd (process_list urlparse client username password list_input action dry_run
         output_file limit s) = inr tt.
Proof.
  unfold process_list. rewrite run_bind. cbn [print emit].
  match goal with
  | |- context [try_except ?m ?h s] =>
      unfold try_except; destruct (m s) as [[s1 t1] [e|[]]]
  end; reflexivity.
Qed.

(** X3: the only file a run can change is the output file: every other
    file holds after the run what it held before, in every mode and
    whatever the service does. *)
Theorem process_list_writes_only_output
        username password list_input action dry_run output_file limit :
  WritesOnly output_file
    (process_list urlparse client username password list_input action dry_run
       output_file limit).
Proof.
  unfold process_list, print.
  apply writes_only_bind; [apply writes_only_keeps, keeps_emit|intros _].
  apply writes_only_try; [|intros; apply writes_only_keeps, keeps_emit].
  apply writes_only_bind; [apply writes_only_keeps, keeps_remote_call|intros me].
  apply writes_only_bind; [apply writes_only_keeps, keeps_emit|intros _].
  apply writes_only_bind;
    [apply writes_only_keeps, keeps_resolve_list_uri|intros list_uri].
  apply writes_only_bind; [apply writes_only_keeps, keeps_emit|intros _].
  apply writes_only_bind; [apply writes_only_keeps, keeps_enumerate_users|intros users].
  apply writes_only_bind; [apply writes_only_dump|intros _].
  apply writes_only_bind; [apply writes_only_keeps, keeps_emit|intros _].
  destruct dry_run.
  - apply writes_only_bind; [apply writes_only_keeps, keeps_emit|intros _].
    apply writes_only_keeps, keeps_dry_run_report.
  - apply writes_only_bind; [apply writes_only_keeps, keeps_emit|intros _].
    apply writes_only_bind; [apply writes_only_keeps, keeps_action_loop|intros counters].
    apply writes_only_keeps, keeps_emit.
Qed.

End WholeRunMore.

Lemma process_list_writes_only_output_witness :
  files (final_state
           (process_list UrlLib.urlparse (Script.service [] Script.two_members 0)
              "me.example" "secret" "https://bsky.app/profile/did:plc:o/lists/abc"
              "block" false "out.json" 100)
           (mkState 0%nat {[ "notes.txt" := mkFile (JString "keep") 0 ]})) !! "notes.txt"
  = Some (mkFile (JString "keep") 0).
Proof.
  rewrite (process_list_writes_only_output UrlLib.urlparse
             (Script.service [] Script.two_members 0)
             "me.example" "secret" "https://bsky.app/profile/did:plc:o/lists/abc"
             "block" false "out.json" 100
             (mkState 0%nat {[ "notes.txt" := mkFile (JString "keep") 0 ]}) "notes.txt").
  - cbn [files]. apply lookup_singleton_eq.
  - discriminate.
Defined.


Section Stages.
Context {R : Type}.
Variable urlparse : string -> result ParseResult.
Variable client : Service R.

Lemma calm_resolve_list_uri list_input :
  Always calm (resolve_list_uri urlparse client list_input).
Proof. unfold resolve_list_uri, resolve_handle_to_did. runs. Qed.

Lemma calm_enumerate_users list_uri limit :
  Always calm (enumerate_users client list_uri limit).
Proof. unfold enumerate_users, get_feed_users. runs. Qed.

Lemma calm_front username password list_input list_uri limit r1
      (s s2 s3 : state R) t2 t3 res2 res3 :
  resolve_list_uri urlparse client list_input (mkState r1 (files s)) = (s2, t2, res2) ->
  enumerate_users client list_uri limit s2 = (s3, t3, res3) ->
  Forall calm (front_of username password t2 list_uri t3) /\ files s3 = files s.
Proof.
  intros Hresolve Henum.
  pose proof (calm_enumerate_users list_uri limit s2) as Q3.
  pose proof (calm_resolve_list_uri list_input (mkState r1 (files s))) as Q2.
  pose proof (keeps_enumerate_users client list_uri limit s2) as K3.
  pose proof (keeps_resolve_list_uri urlparse client list_input (mkState r1 (files s))) as K2.
  unfold trace_of, final_state in *. rewrite Henum in Q3, K3. rewrite Hresolve in Q2, K2.
  cbn [fst snd files] in *. split; [|congruence].
  unfold front_of.
  repeat first [apply Forall_app; split | apply Forall_cons; split
               | apply Forall_nil | assumption | quiet_event].
Qed.


End Stages.


Section ActionMode.
Context {R : Type}.
Variable urlparse : string -> result ParseResult.
Variable client : Service R.





End ActionMode.



Section FatalErrors.
Context {R : Type}.
Variable urlparse : string -> result ParseResult.
Variable client : Service R.

(** X2: when the login, the resolution of the input or the enumeration
    raises, the run stops there: it prints [Error: ] and the message as its
    last line and returns; it has written no file (the files are as they
    were), made no block or mute request and no pause, in dry-run mode or
    not. *)
Theorem fatal_error_reported
        username password list_input action dry_run output_file limit (s : state R) e :
  (exists r1, login client username password (remote s) = (r1, inl e)) \/
  (exists r1 me s2 t2,
      login client username password (remote s) = (r1, inr me) /\
      resolve_list_uri urlparse client list_input (mkState r1 (files s)) = (s2, t2, inl e)) \/
  (exists r1 me s2 t2 list_uri s3 t3,
      login client username password (remote s) = (r1, inr me) /\
      resolve_list_uri urlparse client list_input (mkState r1 (files s))
        = (s2, t2, inr list_uri) /\
      enumerate_users client list_uri limit s2 = (s3, t3, inl e)) ->
  exists s' before,
    process_list urlparse client username password list_input action dry_run
      output_file limit s
    = (s', before ++ [Print ("Error: " +:+ str e)], inr tt) /\
    files s' = files s /\
    Forall calm before.
Proof.
  intros [(r1 & Hlogin)
         |[(r1 & me & s2 & t2 & Hlogin & Hresolve)
          |(r1 & me & s2 & t2 & list_uri & s3 & t3 & Hlogin & Hresolve & Henum)]].
  - exists (mkState r1 (files s)),
      [Print ("Connecting to Bluesky as " +:+ username +:+ "...");
       Call (Login username password) (Some e)].
    split; [|split; [reflexivity|repeat constructor]].
    unfold process_list. rewrite run_bind. cbn [print emit]. unfold try_except.
    rewrite run_bind. unfold remote_call at 1. rewrite Hlogin. reflexivity.
  - exists s2,
      ([Print ("Connecting to Bluesky as " +:+ username +:+ "...");
        Call (Login username password) None;
        Print "Successfully logged in"] ++ t2).
    pose proof (calm_resolve_list_uri urlparse client list_input (mkState r1 (files s))) as Q2.
    pose proof (keeps_resolve_list_uri urlparse client list_input (mkState r1 (files s)))
      as K2.
    unfold trace_of, final_state in Q2, K2. rewrite Hresolve in Q2, K2.
    cbn [fst snd files] in Q2, K2.
    split; [|split; [exact K2|]].
    + unfold process_list. rewrite run_bind. cbn [print emit]. unfold try_except.
      rewrite run_bind. unfold remote_call at 1. rewrite Hlogin.
      rewrite run_bind. cbn [print emit]. rewrite run_bind. rewrite Hresolve.
      cbn [app]. rewrite <- ?app_assoc. reflexivity.
    + repeat first [apply Forall_app; split | apply Forall_cons; split
                   | apply Forall_nil | assumption | quiet_event].
  - exists s3, (front_of username password t2 list_uri t3).
    destruct (calm_front urlparse client username password list_input list_uri limit r1
                s s2 s3 t2 t3 _ _ Hresolve Henum) as [Hcalm Hfiles].
    split; [|split; assumption].
    unfold process_list. rewrite run_bind. cbn [print emit]. unfold try_except.
    rewrite run_bind. unfold remote_call at 1. rewrite Hlogin.
    rewrite run_bind. cbn [print emit]. rewrite run_bind. rewrite Hresolve.
    rewrite run_bind. cbn [print emit]. rewrite run_bind. rewrite Henum.
    unfold front_of. cbn [app]. rewrite <- ?app_assoc. reflexivity.
Qed.

(** X9: when the feed request raises, [get_feed_users] prints its own line
    and hands the same exception on, so that the error is printed twice,
    once as [Error getting feed: ] and once as [Error: ], with the same
    message; these are the last two lines of the run, and no file is
    written. *)
Theorem feed_error_printed_twice
        username password list_input action dry_run output_file limit
        (s : state R) r1 me s2 t2 list_uri r3 e :
  login client username password (remote s) = (r1, inr me) ->
  resolve_list_uri urlparse client list_input (mkState r1 (files s))
    = (s2, t2, inr list_uri) ->
  Str.contains "feed.generator" list_uri = true ->
  get_feed client list_uri limit (remote s2) = (r3, inl e) ->
  get_feed_users client list_uri limit s2
  = (mkState r3 (files s2),
     [Call (GetFeed list_uri limit) (Some e); Print ("Error getting feed: " +:+ str e)],
     inl e) /\
  process_list urlparse client username password list_input action dry_run
    output_file limit s
  = (mkState r3 (files s),
     [Print ("Connecting to Bluesky as " +:+ username +:+ "...");
      Call (Login username password) None;
      Print "Successfully logged in"]
     ++ t2
     ++ [Print ("Using URI: " +:+ list_uri);
         Print ("Processing feed (fetching up to " +:+ pretty limit +:+ " posts)...");
         Call (GetFeed list_uri limit) (Some e);
         Print ("Error getting feed: " +:+ str e);
         Print ("Error: " +:+ str e)],
     inr tt).
Proof.
  intros Hlogin Hresolve Hc Hfeed.
  assert (Hget : get_feed_users client list_uri limit s2
                 = (mkState r3 (files s2),
                    [Call (GetFeed list_uri limit) (Some e);
                     Print ("Error getting feed: " +:+ str e)],
                    inl e)).
  { unfold get_feed_users, try_except. rewrite run_bind. unfold remote_call.
    rewrite Hfeed. reflexivity. }
  split; [exact Hget|].
  pose proof (keeps_resolve_list_uri urlparse client list_input (mkState r1 (files s))) as K2.
  unfold final_state in K2. rewrite Hresolve in K2. cbn [fst files] in K2.
  unfold process_list. rewrite run_bind. cbn [print emit]. unfold try_except.
  rewrite run_bind. unfold remote_call at 1. rewrite Hlogin.
  rewrite run_bind. cbn [print emit]. rewrite run_bind. rewrite Hresolve.
  rewrite run_bind. cbn [print emit]. rewrite run_bind.
  unfold enumerate_users. rewrite Hc. rewrite run_bind. cbn [print emit].
  rewrite Hget. cbn [print emit]. rewrite K2.
  cbn [app]. rewrite <- ?app_assoc. reflexivity.
Qed.

End FatalErrors.

Lemma fatal_error_reported_witness :
  exists s' before,
    process_list UrlLib.urlparse (Faulty.service false) "me.example" "wrong"
      "https://bsky.app/profile/did:plc:o/lists/abc" "block" false "out.json" 100
      Script.start
    = (s', before ++ [Print ("Error: " +:+ str (RemoteError "invalid password"))], inr tt) /\
    files s' = files Script.start /\
    Forall calm before.
Proof.
  apply (fatal_error_reported UrlLib.urlparse (Faulty.service false) "me.example" "wrong"
           "https://bsky.app/profile/did:plc:o/lists/abc" "block" false "out.json" 100
           Script.start (RemoteError "invalid password")).
  left. exists 0%nat. reflexivity.
Defined.

Lemma feed_error_printed_twice_witness :
  trace_of (process_list UrlLib.urlparse (Faulty.service true) "me.example" "secret"
              "https://bsky.app/profile/did:plc:o/feed/abc" "block" false "out.json" 100)
    Script.start
  = [Print "Connecting to Bluesky as me.example...";
     Call (Login "me.example" "secret") None;
     Print "Successfully logged in";
     Print "Using URI: at://did:plc:o/app.bsky.feed.generator/abc";
     Print "Processing feed (fetching up to 100 posts)...";
     Call (GetFeed "at://did:plc:o/app.bsky.feed.generator/abc" 100)
       (Some (RemoteError "feed unavailable"));
     Print "Error getting feed: feed unavailable";
     Print "Error: feed unavailable"].
Proof.
  destruct (feed_error_printed_twice UrlLib.urlparse (Faulty.service true)
              "me.example" "secret" "https://bsky.app/profile/did:plc:o/feed/abc"
              "block" false "out.json" 100
              Script.start 0%nat Script.me Script.start []
              "at://did:plc:o/app.bsky.feed.generator/abc" 0%nat
              (RemoteError "feed unavailable")
              eq_refl eq_refl eq_refl eq_refl) as [_ Hrun].
  unfold trace_of. rewrite Hrun. reflexivity.
Defined.

(** ** Resolution and dispatch together *)

Section ResolveAndDispatch.
Context {R : Type}.
Variable urlparse : string -> result ParseResult.
Variable client : Service R.

(** X15: when the identifier segment of an accepted URL is a handle,
    [process_list] asks the service for that handle, once, and builds the
    identifier from the answer as it comes (it is not checked to be a DID);
    when the service refuses, the exception is the result and nothing more
    is done. *)
Theorem handle_resolved_by_one_call url handle list_name record_type (s : state R) :
  convert_url_to_at_uri urlparse url = inr (NeedsHandle handle list_name record_type) ->
  resolve_list_uri urlparse client url s
  = match resolve_handle client handle (remote s) with
    | (r', inr did) =>
        (mkState r' (files s),
         [Print ("Resolving handle: " +:+ handle);
          Call (ResolveHandle handle) None;
          Print ("Resolved DID: " +:+ did)],
         inr ("at://" +:+ did +:+ "/" +:+ record_type +:+ "/" +:+ list_name))
    | (r', inl e) =>
        (mkState r' (files s),
         [Print ("Resolving handle: " +:+ handle);
          Call (ResolveHandle handle) (Some e)],
         inl e)
    end.
Proof.
  intros Hc. unfold resolve_list_uri. rewrite run_bind. unfold lift. rewrite Hc.
  rewrite run_bind. cbn [print emit]. rewrite run_bind.
  unfold resolve_handle_to_did, remote_call. cbn [remote files].
  destruct (resolve_handle client handle (remote s)) as [r' [e|did]]; reflexivity.
Qed.

(** X13: a web URL whose third segment is [feed] is always enumerated as a
    feed: whatever its identifier and its name, and whatever the service
    answers for a handle, the identifier [process_list] arrives at contains
    [feed.generator], and the enumeration asks for the feed with it. *)
Theorem feed_url_enumerated_as_feed url parsed (s s' : state R) t list_uri limit s2 :
  Str.startswith "at://" url = false ->
  urlparse url = inr parsed ->
  path_parts (path parsed) !! 2%nat = Some "feed" ->
  resolve_list_uri urlparse client url s = (s', t, inr list_uri) ->
  Str.contains "feed.generator" list_uri = true /\
  exists outcome rest,
    trace_of (enumerate_users client list_uri limit) s2
    = Print ("Processing feed (fetching up to " +:+ pretty limit +:+ " posts)...")
      :: Call (GetFeed list_uri limit) outcome :: rest.
Proof.
  intros Hat Hp Hfeed Hres.
  assert (Hc : Str.contains "feed.generator" list_uri = true).
  { assert (Hn : netloc parsed = "bsky.app").
    { destruct (String.eqb (netloc parsed) "bsky.app") eqn:Hn;
        [now apply String.eqb_eq|].
      rewrite (resolve_list_uri_error urlparse client url
                 (ValueError "Not a valid Bluesky URL") s) in Hres; [discriminate Hres|].
      unfold convert_url_to_at_uri. rewrite Hat, Hp. cbn [bindE]. now rewrite Hn. }
    pose proof (convert_accepted_host urlparse url parsed Hat Hp Hn) as Hconv.
    destruct (path_parts (path parsed)) as [|p0 [|identifier [|feed_type [|name rest]]]];
      try (rewrite (resolve_list_uri_error _ client url _ s Hconv) in Hres;
           discriminate Hres).
    cbn in Hfeed. injection Hfeed as ->.
    destruct (String.eqb p0 "profile");
      [|rewrite (resolve_list_uri_error _ client url _ s Hconv) in Hres;
        discriminate Hres].
    cbn [record_type_of String.eqb Ascii.eqb Bool.eqb] in Hconv.
    unfold resolution in Hconv.
    destruct (Str.startswith "did:" identifier).
    - rewrite (resolve_list_uri_final urlparse client url _ s Hconv) in Hres.
      injection Hres as _ _ <-. do 3 apply contains_append. reflexivity.
    - unfold resolve_list_uri in Hres. rewrite run_bind in Hres. unfold lift in Hres.
      rewrite Hconv in Hres. rewrite run_bind in Hres. cbn [print emit] in Hres.
      rewrite run_bind in Hres. unfold resolve_handle_to_did, remote_call in Hres.
      destruct (resolve_handle client identifier (remote s)) as [r' [e|did]];
        [discriminate Hres|].
      cbn in Hres. injection Hres as _ _ <-. do 3 apply contains_append. reflexivity. }
  split; [exact Hc|].
  rewrite enumerate_users_trace, Hc.
  destruct (snd (get_feed client list_uri limit (remote s2))); eexists _, _; reflexivity.
Qed.

End ResolveAndDispatch.

Lemma handle_resolved_by_one_call_witness :
  resolve_list_uri UrlLib.urlparse (Script.service [] [] 0)
    "https://bsky.app/profile/alice.example/lists/abc" Script.start
  = (Script.start,
     [Print "Resolving handle: alice.example";
      Call (ResolveHandle "alice.example") None;
      Print "Resolved DID: did:plc:alice.example"],
     inr "at://did:plc:alice.example/app.bsky.graph.list/abc").
Proof.
  rewrite (handle_resolved_by_one_call UrlLib.urlparse (Script.service [] [] 0)
             "https://bsky.app/profile/alice.example/lists/abc"
             "alice.example" "abc" "app.bsky.graph.list" Script.start).
  - reflexivity.
  - reflexivity.
Defined.

Lemma feed_url_enumerated_as_feed_witness :
  Str.contains "feed.generator" "at://did:plc:alice.example/app.bsky.feed.generator/abc"
  = true /\
  exists outcome rest,
    trace_of (enumerate_users (Script.service [] [] 0)
                "at://did:plc:alice.example/app.bsky.feed.generator/abc" 100) Script.start
    = Print ("Processing feed (fetching up to " +:+ pretty 100 +:+ " posts)...")
      :: Call (GetFeed "at://did:plc:alice.example/app.bsky.feed.generator/abc" 100) outcome
      :: rest.
Proof.
  apply (feed_url_enumerated_as_feed UrlLib.urlparse (Script.service [] [] 0)
           "https://bsky.app/profile/alice.example/feed/abc"
           (mkParseResult "https" "bsky.app" "/profile/alice.example/feed/abc" "" "" "")
           Script.start Script.start
           [Print "Resolving handle: alice.example";
            Call (ResolveHandle "alice.example") None;
            Print "Resolved DID: did:plc:alice.example"]
           "at://did:plc:alice.example/app.bsky.feed.generator/abc" 100 Script.start);
    reflexivity.
Defined.

(** ** The requests of the action loop *)

Section Requests.
Context {R : Type}.
Variable client : Service R.

(** The request of one turn of the loop; nothing else in the turn is a
    request. *)
Lemma attempt_user_request me action u processed errors (s : state R) :
  exists s1 outcome rest counters,
    attempt_user client me action u processed errors s
    = (s1,
       Call (if String.eqb action "block"
             then BlockCreate (Actor.did me)
                    (mkBlockRecord "app.bsky.graph.block" (did u)
                       (snd (utcnow_isoformat client (remote s)) +:+ "Z"))
             else MuteActor (did u)) outcome :: rest,
       inr counters) /\
    requests rest = [].
Proof.
  unfold attempt_user, try_except, apply_action.
  destruct (String.eqb action "block").
  - unfold mbind, M_bind, bind, utcnow, remote_call, print, sleep, emit, mret, M_ret, ret.
    destruct (utcnow_isoformat client (remote s)) as [r1 now].
    cbn [remote files snd].
    destruct (block_create client (Actor.did me)
                (mkBlockRecord "app.bsky.graph.block" (did u) (now +:+ "Z")) r1)
      as [r2 [e|[]]]; eexists _, _, _, _; split; reflexivity.
  - unfold mbind, M_bind, bind, remote_call, print, sleep, emit, mret, M_ret, ret.
    destruct (mute_actor client (did u) (remote s)) as [r2 [e|[]]];
      eexists _, _, _, _; split; reflexivity.
Qed.

Lemma requests_app tr1 tr2 : requests (tr1 ++ tr2) = requests tr1 ++ requests tr2.
Proof.
  induction tr1 as [|ev tr1 IH]; [reflexivity|].
  destruct ev as [c r| | |]; cbn [app requests]; try exact IH.
  destruct (action_target c); [cbn [app]; now rewrite IH|exact IH].
Qed.

(** X6: every action other than [block] is a mute: when [action] is not
    the string [block], whatever it is, the loop sends one mute request per
    user, for the user's id, in order, and no block request. *)
Theorem other_actions_mute me action users (s : state R) :
  action <> "block" ->
  requests (trace_of (action_loop client me action users 0 0) s)
  = (fun u => MuteActor (did u)) <$> users.
Proof.
  intros Hne. apply eqb_false_ne in Hne.
  generalize 0 at 1 as processed. generalize 0 as errors. revert s.
  induction users as [|u rest IH]; intros s errors processed; [reflexivity|].
  destruct (attempt_user_request me action u processed errors s)
    as (s1 & outcome & tail & [p e] & Hrun & Htail).
  rewrite Hne in Hrun.
  unfold trace_of in *. cbn [action_loop]. rewrite run_bind, Hrun.
  specialize (IH s1 e p). cbn [fst snd] in *.
  destruct (action_loop client me action rest p e s1) as [[s2 t2] r2].
  cbn [fst snd] in *. rewrite requests_app.
  cbn [requests action_target]. rewrite Htail, IH. reflexivity.
Qed.

(** One turn of the loop with the action [block]: the clock is read, the
    request carries what it showed, and the turn leaves the service as the
    request left it. *)
Lemma attempt_user_block me u processed errors (s : state R) :
  let clock := utcnow_isoformat client (remote s) in
  let record := mkBlockRecord "app.bsky.graph.block" (did u) (snd clock +:+ "Z") in
  exists outcome rest counters,
    attempt_user client me "block" u processed errors s
    = (mkState (fst (block_create client (Actor.did me) record (fst clock))) (files s),
       Call (BlockCreate (Actor.did me) record) outcome :: rest,
       inr counters) /\
    requests rest = [].
Proof.
  cbv zeta. unfold attempt_user, try_except, apply_action.
  cbn [String.eqb Ascii.eqb Bool.eqb].
  unfold mbind, M_bind, bind, utcnow, remote_call, print, sleep, emit, mret, M_ret, ret.
  destruct (utcnow_isoformat client (remote s)) as [r1 now].
  cbn [remote files fst snd].
  destruct (block_create client (Actor.did me)
              (mkBlockRecord "app.bsky.graph.block" (did u) (now +:+ "Z")) r1)
    as [r2 [e|[]]]; eexists _, _, _; split; reflexivity.
Qed.

(** X5: with the action [block], the loop sends one request per user, in
    order, each creating a record of type [app.bsky.graph.block] in the
    repository of the logged-in account, with the user's id as subject and
    a creation time that is what the clock shows just before that request,
    followed by [Z]; it sends no mute request. *)
Theorem block_requests_well_formed me users (s : state R) :
  requests (trace_of (action_loop client me "block" users 0 0) s)
  = block_requests_from client me users (remote s) /\
  Forall2
    (fun c u =>
       exists r,
         c = BlockCreate (Actor.did me)
               (mkBlockRecord "app.bsky.graph.block" (did u)
                  (snd (utcnow_isoformat client r) +:+ "Z")))
    (requests (trace_of (action_loop client me "block" users 0 0) s))
    users.
Proof.
  assert (Heq : forall processed errors (s0 : state R),
             requests (trace_of (action_loop client me "block" users processed errors) s0)
             = block_requests_from client me users (remote s0)).
  { induction users as [|u rest IH]; intros processed errors s0; [reflexivity|].
    destruct (attempt_user_block me u processed errors s0)
      as (outcome & tail & [p e] & Hrun & Htail).
    unfold trace_of in *. cbn [action_loop block_requests_from].
    rewrite run_bind, Hrun.
    specialize (IH p e
                  (mkState
                     (fst (block_create client (Actor.did me)
                             (mkBlockRecord "app.bsky.graph.block" (did u)
                                (snd (utcnow_isoformat client (remote s0)) +:+ "Z"))
                             (fst (utcnow_isoformat client (remote s0)))))
                     (files s0))).
    cbn [fst snd remote] in *.
    match goal with
    | |- context [action_loop client me "block" rest p e ?st] =>
        destruct (action_loop client me "block" rest p e st) as [[s2 t2] r2]
    end.
    cbn [fst snd] in *. rewrite requests_app.
    cbn [requests action_target]. rewrite Htail, IH. reflexivity. }
  split; [apply Heq|]. rewrite Heq.
  generalize (remote s). clear. induction users as [|u rest IH]; intros r.
  - constructor.
  - cbn [block_requests_from]. constructor; [now exists r|apply IH].
Qed.

End Requests.

Lemma other_actions_mute_witness :
  requests (trace_of (action_loop (Script.service [] [] 1) Script.me "unfollow"
                        Script.three_users 0 0) Script.start)
  = [MuteActor "did:plc:x"; MuteActor "did:plc:y"; MuteActor "did:plc:z"].
Proof.
  apply (other_actions_mute (Script.service [] [] 1) Script.me "unfollow"
           Script.three_users Script.start).
  discriminate.
Defined.

(** ** Feed enumeration and the order of the answer *)

(** X8: the users returned for a feed depend only on which authors occur
    in the answer, not on how often or in which order: two answers with
    the same authors give the same users, up to the order in which the set
    hands them out. *)
Theorem feed_users_depend_on_authors_only {R} (client : Service R)
        uri uri' limit limit' (s s' : state R) r r' feed feed' :
  get_feed client uri limit (remote s) = (r, inr feed) ->
  get_feed client uri' limit' (remote s') = (r', inr feed') ->
  (forall a, Some a ∈ (fun item => author (post item)) <$> feed <->
             Some a ∈ (fun item => author (post item)) <$> feed') ->
  exists users users',
    snd (get_feed_users client uri limit s) = inr users /\
    snd (get_feed_users client uri' limit' s') = inr users' /\
    users ≡ₚ users'.
Proof.
  intros Hfeed Hfeed' Hsame.
  exists (user_of_pair <$> elements (feed_authors feed)),
    (user_of_pair <$> elements (feed_authors feed')).
  split; [|split].
  - unfold get_feed_users, try_except. rewrite run_bind. unfold remote_call.
    now rewrite Hfeed.
  - unfold get_feed_users, try_except. rewrite run_bind. unfold remote_call.
    now rewrite Hfeed'.
  - assert (Heq : feed_authors feed = feed_authors feed').
    { apply set_eq. intros p. rewrite !elem_of_feed_authors. split.
      - intros (item & a & Hin & Ha & ->).
        assert (H : Some a ∈ (fun item => author (post item)) <$> feed)
          by (apply list_elem_of_fmap; now exists item).
        apply Hsame, list_elem_of_fmap in H as (item' & Ha' & Hin').
        now exists item', a.
      - intros (item & a & Hin & Ha & ->).
        assert (H : Some a ∈ (fun item => author (post item)) <$> feed')
          by (apply list_elem_of_fmap; now exists item).
        apply Hsame, list_elem_of_fmap in H as (item' & Ha' & Hin').
        now exists item', a. }
    now rewrite Heq.
Qed.

Lemma feed_users_depend_on_authors_only_witness :
  exists users users',
    snd (get_feed_users Feeds.service "at://did:plc:f/app.bsky.feed.generator/one" 100
           Script.start) = inr users /\
    snd (get_feed_users Feeds.service "at://did:plc:f/app.bsky.feed.generator/two" 2
           Script.start) = inr users' /\
    users ≡ₚ users'.
Proof.
  apply (feed_users_depend_on_authors_only Feeds.service
           "at://did:plc:f/app.bsky.feed.generator/one"
           "at://did:plc:f/app.bsky.feed.generator/two" 100 2
           Script.start Script.start 0%nat 0%nat
           [Script.item "did:plc:a" "a.example"; Script.item "did:plc:b" "b.example";
            Script.item "did:plc:a" "a.example"]
           [Script.item "did:plc:b" "b.example"; Script.item "did:plc:a" "a.example"]).
  - reflexivity.
  - reflexivity.
  - intros a. cbn [fmap list_fmap Script.item post author].
    split; intros H;
      repeat (apply elem_of_cons in H as [H|H]; [rewrite H|]);
      try (now apply elem_of_nil in H);
      repeat first [apply list_elem_of_here | apply list_elem_of_further].
Defined.

(** ** The entry point *)

Section MainRuns.
Context {R : Type}.
Variable urlparse : string -> result ParseResult.
Variable client : Service R.
Variable parse_arguments : M R Args.t.

(** X14: without credentials nothing is attempted: when [BSKY_USERNAME] or
    [BSKY_PASSWORD] is missing from the environment or empty, [main] prints
    its one error line and returns; the command line is not even parsed,
    no remote call is made and no file is written. *)
Theorem main_needs_credentials (environ : gmap string string) (s : state R) :
  truthy (environ !! "BSKY_USERNAME") = false \/
  truthy (environ !! "BSKY_PASSWORD") = false ->
  main urlparse client parse_arguments environ s
  = (s, [Print "Error: BSKY_USERNAME and BSKY_PASSWORD must be set in .env file"], inr tt).
Proof.
  intros H. unfold main.
  assert (Hor : negb (truthy (environ !! "BSKY_USERNAME"))
                || negb (truthy (environ !! "BSKY_PASSWORD")) = true).
  { destruct H as [-> | ->]; [reflexivity|apply orb_true_r]. }
  now rewrite Hor.
Qed.

Lemma trace_bind_prefix {A B} (m : M R A) (k : A -> M R B) (s : state R) :
  exists rest, trace_of (m ≫= k) s = trace_of m s ++ rest.
Proof.
  unfold trace_of. rewrite run_bind. destruct (m s) as [[s1 t1] [e|a]].
  - exists []. cbn [fst snd]. now rewrite app_nil_r.
  - destruct (k a s1) as [[s2 t2] r]. now exists t2.
Qed.

Lemma trace_try_prefix {A} (m : M R A) (h : exn -> M R A) (s : state R) :
  exists rest, trace_of (try_except m h) s = trace_of m s ++ rest.
Proof.
  unfold trace_of, try_except. destruct (m s) as [[s1 t1] [e|a]].
  - destruct (h e s1) as [[s2 t2] r]. now exists t2.
  - exists []. cbn [fst snd]. now rewrite app_nil_r.
Qed.

(** X16: with both credentials set, [main] parses the command line and
    then runs [process_list]: what the parser raises leaves [main] as it
    is, with nothing else done; otherwise the first remote call is the
    login with the user name and the password of the environment,
    unchanged, and [main] returns normally whatever happens afterwards. *)
Theorem main_logs_in_with_environment
        (environ : gmap string string) username password (s s1 : state R) t1 parsed :
  environ !! "BSKY_USERNAME" = Some username -> username <> "" ->
  environ !! "BSKY_PASSWORD" = Some password -> password <> "" ->
  parse_arguments s = (s1, t1, parsed) ->
  match parsed with
  | inl e => main urlparse client parse_arguments environ s = (s1, t1, inl e)
  | inr args =>
      snd (main urlparse client parse_arguments environ s) = inr tt /\
      exists rest,
        trace_of (main urlparse client parse_arguments environ) s
        = t1 ++ Print ("Connecting to Bluesky as " +:+ username +:+ "...")
             :: Call (Login username password)
                  (raised (snd (login client username password (remote s1))))
             :: rest
  end.
Proof.
  intros Hu Hune Hp Hpne Hparse. unfold main. rewrite Hu, Hp.
  destruct username as [|cu username]; [contradiction|].
  destruct password as [|cp password]; [contradiction|].
  cbn [truthy negb orb default from_option id]. unfold trace_of.
  rewrite run_bind, Hparse.
  destruct parsed as [e|args]; [reflexivity|].
  split.
  - unfold process_list. rewrite run_bind. cbn [print emit].
    match goal with
    | |- context [try_except ?m ?h s1] =>
        unfold try_except; destruct (m s1) as [[s2 t2] [e|[]]]
    end; reflexivity.
  - unfold process_list.
    match goal with
    | |- context [(print ?line ≫= ?k) s1] =>
        assert (Hrun : exists rest,
                   trace_of (print line ≫= k) s1
                   = Print line
                     :: Call (Login (String cu username) (String cp password))
                          (raised (snd (login client (String cu username)
                                          (String cp password) (remote s1))))
                     :: rest)
    end.
    { unfold trace_of. rewrite run_bind. cbn [print emit].
      match goal with
      | |- context [try_except ?m ?h s1] =>
          destruct (trace_try_prefix m h s1) as [rest1 Hrest1];
          unfold trace_of in Hrest1
      end.
      match type of Hrest1 with
      | context [(?m ≫= ?k) s1] =>
          destruct (trace_bind_prefix m k s1) as [rest2 Hrest2];
          unfold trace_of in Hrest2
      end.
      rewrite Hrest2 in Hrest1. unfold remote_call at 2 in Hrest1.
      destruct (login client (String cu username) (String cp password) (remote s1))
        as [r1 res] eqn:Hlogin.
      cbn [fst snd] in Hrest1.
      exists (rest2 ++ rest1).
      match goal with
      | |- context [try_except ?m ?h s1] =>
          destruct (try_except m h s1) as [[s3 t3] r3]
      end.
      cbn [fst snd] in *. rewrite Hrest1. cbn [app]. rewrite <- ?app_assoc. reflexivity. }
    destruct Hrun as [rest Hrun]. unfold trace_of in Hrun. exists rest.
    match goal with
    | |- context [(print ?line ≫= ?k) s1] =>
        destruct ((print line ≫= k) s1) as [[s3 t3] r3]
    end.
    cbn [fst snd] in *. now rewrite Hrun.
Qed.

End MainRuns.

Lemma main_needs_credentials_witness :
  main UrlLib.urlparse (Faulty.service true) Faulty.parse_arguments
    {[ "BSKY_USERNAME" := "me.example"; "BSKY_PASSWORD" := "" ]} Script.start
  = (Script.start,
     [Print "Error: BSKY_USERNAME and BSKY_PASSWORD must be set in .env file"], inr tt).
Proof.
  apply (main_needs_credentials UrlLib.urlparse (Faulty.service true)
           Faulty.parse_arguments).
  right. reflexivity.
Defined.

Lemma main_logs_in_with_environment_witness :
  snd (main UrlLib.urlparse (Faulty.service false) Faulty.parse_arguments
         {[ "BSKY_USERNAME" := "me.example"; "BSKY_PASSWORD" := "secret" ]} Script.start)
  = inr tt /\
  exists rest,
    trace_of (main UrlLib.urlparse (Faulty.service false) Faulty.parse_arguments
                {[ "BSKY_USERNAME" := "me.example"; "BSKY_PASSWORD" := "secret" ]})
      Script.start
    = [] ++ Print ("Connecting to Bluesky as " +:+ "me.example" +:+ "...")
         :: Call (Login "me.example" "secret")
              (raised (snd (login (Faulty.service false) "me.example" "secret"
                              (remote Script.start))))
         :: rest.
Proof.
  apply (main_logs_in_with_environment UrlLib.urlparse (Faulty.service false)
           Faulty.parse_arguments
           {[ "BSKY_USERNAME" := "me.example"; "BSKY_PASSWORD" := "secret" ]}
           "me.example" "secret" Script.start Script.start [] (inr Faulty.parsed_args)).
  - reflexivity.
  - discriminate.
  - reflexivity.
  - discriminate.
  - reflexivity.
Defined.
